(** * A shallow embedding of the host-processing core of Censei.

    The Go sources modelled here are
    - [filter/blocklist.go] ([Load], [Save], [IsBlocked], [AddHost], the
      getters and the [saveWorker] goroutine with [Close]) and both
      versions of the extension filter,
    - [scanners/directory.go] ([ScanHostRecursive], [scanRecursive],
      [IsDirectoryListing], [isDirectory]),
    - [crawler/worker.go] ([processHost], [processDirectoryContent] and its
      [skipCallback]),
    - [output/writer.go] ([WriteRawOutput], [WriteFilteredOutput],
      [WriteBinaryOutput], [writeSortedBinaryFindings], [Close]),
    - [filechecker/filechecker.go] ([CheckSpecificFile], [CheckFileURL]).

    Strings are Go byte strings, modelled as [String.string].  Library
    functions of Go's standard library whose exact behaviour does not matter
    for a property (Unicode lower-casing, [url.Parse], the HTML parser, HTTP,
    the success of a buffered file write) are parameters of the sections
    that use them. *)

From Stdlib Require Import String Ascii List ZArith Lia Bool Sorting.Sorted.
From stdpp Require Import base gmap sets list strings sorting pretty.

Open Scope string_scope.

(** ** Go string helpers *)

Module GoStr.

(** [strings.HasPrefix] *)
Definition HasPrefix (s pre : string) : bool := String.prefix pre s.

(** [strings.Contains] *)
Fixpoint Contains (s sub : string) : bool :=
  if String.prefix sub s then true
  else match s with
       | EmptyString => false
       | String _ r => Contains r sub
       end.

(** [filepath.Ext] on a slash-separated path: the suffix starting at the
    last ['.'] that is not followed by a ['/'], or [""].  The Go code scans
    backwards; scanning forwards and forgetting the candidate at every
    ['/'] computes the same suffix. *)
Fixpoint ext_scan (s : string) (cand : option string) : option string :=
  match s with
  | EmptyString => cand
  | String c r =>
      if Ascii.eqb c "/"%char then ext_scan r None
      else if Ascii.eqb c "."%char then ext_scan r (Some (String c r))
      else ext_scan r cand
  end.

Definition Ext (path : string) : string :=
  match ext_scan path None with Some e => e | None => "" end.

(** The final ['/']-separated segment of a string. *)
Fixpoint final_segment_from (s cur : string) : string :=
  match s with
  | EmptyString => cur
  | String c r =>
      if Ascii.eqb c "/"%char then final_segment_from r r
      else final_segment_from r cur
  end.

Definition final_segment (s : string) : string := final_segment_from s s.

(** ASCII lower-casing: [strings.ToLower] on ASCII input. *)
Definition ascii_lower (c : ascii) : ascii :=
  let n := nat_of_ascii c in
  if (65 <=? n)%nat && (n <=? 90)%nat then ascii_of_nat (n + 32) else c.

Fixpoint ToLowerAscii (s : string) : string :=
  match s with
  | EmptyString => EmptyString
  | String c r => String (ascii_lower c) (ToLowerAscii r)
  end.

(** ASCII white space ([unicode.IsSpace] restricted to bytes below 0x80). *)
Definition is_space (c : ascii) : bool :=
  let n := nat_of_ascii c in
  (n =? 32)%nat || ((9 <=? n)%nat && (n <=? 13)%nat).

Fixpoint TrimLeft (s : string) : string :=
  match s with
  | EmptyString => EmptyString
  | String c r => if is_space c then TrimLeft r else s
  end.

Fixpoint TrimRight (s : string) : string :=
  match s with
  | EmptyString => EmptyString
  | String c r =>
      let r' := TrimRight r in
      if is_space c && String.eqb r' "" then EmptyString else String c r'
  end.

(** No byte of [s] is white space. *)
Fixpoint no_space (s : string) : bool :=
  match s with
  | EmptyString => true
  | String c r => negb (is_space c) && no_space r
  end.

(** [strings.TrimSpace] *)
Definition TrimSpace (s : string) : string := TrimRight (TrimLeft s).

(** [strings.Fields]: the maximal runs of non-space bytes. *)
Fixpoint fields_go (s cur : string) : list string :=
  match s with
  | EmptyString => if String.eqb cur "" then [] else [cur]
  | String c r =>
      if is_space c then
        (if String.eqb cur "" then fields_go r "" else cur :: fields_go r "")
      else fields_go r (cur ++ String c "")
  end.

Definition Fields (s : string) : list string := fields_go s "".

(** [strings.Split] for a non-empty separator: the pieces around the
    non-overlapping occurrences of [sep], scanning from the left.  [skip]
    counts the bytes of a matched separator still to be dropped. *)
Fixpoint split_go (sep s : string) (skip : nat) (cur : string) : list string :=
  match s with
  | EmptyString => [cur]
  | String c r =>
      match skip with
      | S k => split_go sep r k cur
      | O =>
          if String.prefix sep s then cur :: split_go sep r (String.length sep - 1) ""
          else split_go sep r 0 (cur ++ String c "")
      end
  end.

Definition Split (s sep : string) : list string := split_go sep s 0 "".

(** [strings.HasSuffix] *)
Definition HasSuffix (s suffix : string) : bool :=
  let n := String.length s in
  let k := String.length suffix in
  (k <=? n)%nat && String.eqb (substring (n - k) k s) suffix.

(** [strings.TrimSuffix] *)
Definition TrimSuffix (s suffix : string) : string :=
  let n := String.length s in
  let k := String.length suffix in
  if (k <=? n)%nat && String.eqb (substring (n - k) k s) suffix
  then substring 0 (n - k) s else s.

End GoStr.

(** ** The extension filter ([filter.NewFilter], [Filter.ShouldFilter]) *)

Module Filter.
Import GoStr.

Section WithLower.
(** [strings.ToLower] (Unicode lower-casing in Go). *)
Variable ToLower : string -> string.

(** One step of the loop of [NewFilter]: prefix a dot when missing, then
    lower-case. *)
Definition normalize (ext : string) : string :=
  ToLower (if HasPrefix ext "." then ext else "." ++ ext).

(** [NewFilter]: the [extensionMap] built by the loop. *)
Definition NewFilter (extensions : list string) : gmap string bool :=
  fold_left (fun m ext => <[normalize ext := true]> m) extensions ∅.

(** [ShouldFilter]. *)
Definition ShouldFilter (extensionMap : gmap string bool) (fileURL : string)
  : bool :=
  if Nat.eqb (size extensionMap) 0 then false
  else
    let ext := ToLower (Ext fileURL) in
    match extensionMap !! ext with
    | Some true => true
    | _ => false
    end.

End WithLower.
End Filter.

(** ** Go's [time.Time] and the RFC 3339 layout *)

Module GoTime.
Local Open Scope Z_scope.

(** A [time.Time] as the civil fields it carries in its location, with the
    location's offset (seconds east of UTC). *)
Record Time := mkTime {
  t_year : Z; t_month : Z; t_day : Z;
  t_hour : Z; t_min : Z; t_sec : Z; t_nsec : Z;
  t_offset : Z
}.

Definition is_leap (y : Z) : bool :=
  (Z.eqb (y mod 4) 0 && negb (Z.eqb (y mod 100) 0)) || Z.eqb (y mod 400) 0.

(** [daysIn] *)
Definition daysIn (m y : Z) : Z :=
  if Z.eqb m 2 then (if is_leap y then 29 else 28)
  else if Z.eqb m 4 || Z.eqb m 6 || Z.eqb m 9 || Z.eqb m 11 then 30
  else 31.

Definition digit_val (c : ascii) : option Z :=
  let n := nat_of_ascii c in
  if (48 <=? n)%nat && (n <=? 57)%nat then Some (Z.of_nat (n - 48)) else None.

(** Exactly [n] decimal digits. *)
Fixpoint read_digits (n : nat) (s : string) (acc : Z) : option (Z * string) :=
  match n with
  | O => Some (acc, s)
  | S k =>
      match s with
      | String c r =>
          match digit_val c with
          | Some d => read_digits k r (acc * 10 + d)
          | None => None
          end
      | EmptyString => None
      end
  end.

Definition lit (c : ascii) (s : string) : option string :=
  match s with
  | String c' r => if Ascii.eqb c c' then Some r else None
  | EmptyString => None
  end.

(** The maximal run of digits at the front of [s]. *)
Fixpoint digit_run (s : string) : string * string :=
  match s with
  | String c r =>
      match digit_val c with
      | Some _ => let '(ds, rest) := digit_run r in (String c ds, rest)
      | None => ("", s)
      end
  | EmptyString => ("", "")
  end.

(** [parseNanoseconds]: the first nine fractional digits, scaled to
    nanoseconds. *)
Fixpoint nanos_go (n : nat) (ds : string) (acc : Z) : Z :=
  match n with
  | O => acc
  | S k =>
      match ds with
      | String c r =>
          match digit_val c with
          | Some d => nanos_go k r (acc * 10 + d)
          | None => nanos_go k "" (acc * 10)
          end
      | EmptyString => nanos_go k "" (acc * 10)
      end
  end.

(** The optional fractional second: a ['.'] followed by at least one
    digit. *)
Definition read_frac (s : string) : Z * string :=
  match s with
  | String "."%char (String c r) =>
      match digit_val c with
      | Some _ => let '(ds, rest) := digit_run (String c r) in (nanos_go 9 ds 0, rest)
      | None => (0, s)
      end
  | _ => (0, s)
  end.

(** The zone: ["Z"] or [+hh:mm] / [-hh:mm]. *)
Definition read_zone (s : string) : option Z :=
  match s with
  | String sgn r =>
      if Ascii.eqb sgn "Z"%char then (if String.eqb r "" then Some 0 else None) else
      '(hr, r) ← read_digits 2 r 0;
      r ← lit ":"%char r;
      '(mm, r) ← read_digits 2 r 0;
      if String.eqb r "" && (hr <=? 23) && (mm <=? 59) then
        if Ascii.eqb sgn "+"%char then Some ((hr * 60 + mm) * 60)
        else if Ascii.eqb sgn "-"%char then Some (- ((hr * 60 + mm) * 60))
        else None
      else None
  | EmptyString => None
  end.

(** [parseRFC3339], the parser [time.Parse(time.RFC3339, s)] uses. *)
Definition parseRFC3339 (s : string) : option Time :=
  '(year, s) ← read_digits 4 s 0;
  s ← lit "-"%char s;
  '(month, s) ← read_digits 2 s 0;
  s ← lit "-"%char s;
  '(day, s) ← read_digits 2 s 0;
  s ← lit "T"%char s;
  '(hour, s) ← read_digits 2 s 0;
  s ← lit ":"%char s;
  '(min, s) ← read_digits 2 s 0;
  s ← lit ":"%char s;
  '(sec, s) ← read_digits 2 s 0;
  let '(nsec, s) := read_frac s in
  off ← read_zone s;
  if (1 <=? month) && (month <=? 12) && (1 <=? day) && (day <=? daysIn month year)
     && (hour <=? 23) && (min <=? 59) && (sec <=? 59)
  then Some (mkTime year month day hour min sec nsec off)
  else None.

Definition digit_char (d : Z) : ascii := ascii_of_nat (48 + Z.to_nat d).

(** The last [n] decimal digits of [v], zero padded ([appendInt]). *)
Fixpoint pad_go (n : nat) (v : Z) (acc : string) : string :=
  match n with
  | O => acc
  | S k => pad_go k (v / 10) (String (digit_char (v mod 10)) acc)
  end.

Definition pad (n : nat) (v : Z) : string := pad_go n v "".

Definition format_zone (off : Z) : string :=
  if Z.eqb off 0 then "Z"
  else
    let zone := off / 60 in
    let sgn := if zone <? 0 then "-"%char else "+"%char in
    let zone := Z.abs zone in
    String sgn (pad 2 (zone / 60) ++ ":" ++ pad 2 (zone mod 60)).

(** [t.Format(time.RFC3339)]: whole seconds, no fraction. *)
Definition formatRFC3339 (t : Time) : string :=
  pad 4 (t_year t) ++ "-" ++ pad 2 (t_month t) ++ "-" ++ pad 2 (t_day t) ++ "T" ++
  pad 2 (t_hour t) ++ ":" ++ pad 2 (t_min t) ++ ":" ++ pad 2 (t_sec t) ++
  format_zone (t_offset t).

(** Days since 1970-01-01 of a proleptic Gregorian date. *)
Definition days_from_civil (y m d : Z) : Z :=
  let y := if m <=? 2 then y - 1 else y in
  let era := y / 400 in
  let yoe := y - era * 400 in
  let mp := if 2 <? m then m - 3 else m + 9 in
  let doy := (153 * mp + 2) / 5 + d - 1 in
  let doe := yoe * 365 + yoe / 4 - yoe / 100 + doy in
  era * 146097 + doe - 719468.

(** Seconds since the Unix epoch ([t.Unix()]). *)
Definition unix (t : Time) : Z :=
  days_from_civil (t_year t) (t_month t) (t_day t) * 86400
  + t_hour t * 3600 + t_min t * 60 + t_sec t - t_offset t.

(** A time [Format(time.RFC3339)] writes faithfully: a four-digit year,
    a real calendar date and clock time, and a whole-minute offset below
    24 hours. *)
Definition valid_time (t : Time) : Prop :=
  0 <= t_year t <= 9999 /\ 1 <= t_month t <= 12 /\
  1 <= t_day t <= daysIn (t_month t) (t_year t) /\
  0 <= t_hour t <= 23 /\ 0 <= t_min t <= 59 /\ 0 <= t_sec t <= 59 /\
  exists hr mm, 0 <= hr <= 23 /\ 0 <= mm <= 59 /\
    (t_offset t = (hr * 60 + mm) * 60 \/ t_offset t = - ((hr * 60 + mm) * 60)).

(** [t1.Before(t2)] *)
Definition Before (t1 t2 : Time) : Prop :=
  unix t1 < unix t2 \/ (unix t1 = unix t2 /\ t_nsec t1 < t_nsec t2).

(** [t.Truncate(time.Second)] *)
Definition truncate_sec (t : Time) : Time :=
  mkTime (t_year t) (t_month t) (t_day t) (t_hour t) (t_min t) (t_sec t) 0
         (t_offset t).

End GoTime.

(** ** The persistent blocklist ([filter/blocklist.go]) *)

Module Blocklist.
Import GoStr GoTime.

(** The part of [Blocklist] the properties observe.  [savePending] is the
    capacity-1 [saveChan]: true when a save signal is queued. *)
Record Blocklist := mkBlocklist {
  hosts : gmap string Time;
  enabled : bool;
  savePending : bool
}.

Definition NewBlocklist (enabled : bool) : Blocklist := mkBlocklist ∅ enabled false.

(** One iteration of the [scanner.Scan()] loop of [Load]; [now] is
    [time.Now()]. *)
Definition load_line (now : Time) (m : gmap string Time) (line : string)
  : gmap string Time :=
  let line := TrimSpace line in
  if String.eqb line "" || HasPrefix line "#" then m
  else
    match Fields line with
    | [] => m
    | hostname :: rest =>
        let timestamp :=
          match rest with
          | ts :: _ => match parseRFC3339 ts with Some t => t | None => now end
          | [] => now
          end in
        <[hostname := timestamp]> m
    end.

(** [Load]: [file] is [None] when the file does not exist, otherwise the
    lines [bufio.Scanner] returns. *)
Definition Load (now : Time) (file : option (list string)) (b : Blocklist)
  : Blocklist :=
  if negb (enabled b) then b
  else
    match file with
    | None => b
    | Some lines =>
        mkBlocklist (fold_left (load_line now) lines (hosts b)) (enabled b)
          (savePending b)
    end.

Definition save_line (e : string * Time) : string :=
  e.1 ++ " " ++ formatRFC3339 e.2.

(** [Save]: the lines written to the file ([None]: nothing written, the
    blocklist is disabled); [now] is [time.Now()] of the header.  The data
    lines follow the map's iteration order. *)
Definition Save (now : Time) (b : Blocklist) : option (list string) :=
  if negb (enabled b) then None
  else
    Some (app ["# Censei Blocklist - Generated on " ++ formatRFC3339 now;
           "# Format: hostname timestamp";
           "# Hosts that exceeded skip limits and are permanently blocked";
           ""] (map save_line (map_to_list (hosts b)))).

(** A hostname as [Load] reads it back: a non-empty run of non-space
    bytes that does not start a comment. *)
Definition hostname_ok (h : string) : Prop :=
  h <> "" /\ no_space h = true /\ HasPrefix h "#" = false.

(** [IsBlocked] *)
Definition IsBlocked (hostname : string) (b : Blocklist) : bool :=
  enabled b && bool_decide (is_Some (hosts b !! hostname)).

(** [AddHost] *)
Definition AddHost (now : Time) (hostname : string) (b : Blocklist) : Blocklist :=
  if negb (enabled b) then b
  else
    match hosts b !! hostname with
    | Some _ => b
    | None => mkBlocklist (<[hostname := now]> (hosts b)) (enabled b) true
    end.

End Blocklist.

(** ** URLs ([net/url]) *)

Module GoURL.

(** The fields of a parsed [*url.URL] the code reads: [Scheme], [Host]
    and [Hostname()] (the host without its port). *)
Record URL := mkURL { Scheme : string; Host : string; Hostname : string }.

End GoURL.

(** ** The binary findings of the output writer ([output/writer.go]) *)

Module Output.
Import GoStr GoURL.

Record BinaryFinding := mkFinding { URL : string; ContentType : string }.

(** The bytes [writeSortedBinaryFindings] writes, piece by piece. *)
Inductive Chunk :=
| Separator (host : string) (n : nat)
| UrlLine (url : string).

Definition render_chunk (c : Chunk) : string :=
  match c with
  | Separator host n => "
=== " ++ host ++ " (" ++ pretty n ++ " files) ===
"
  | UrlLine url => url ++ "
"
  end.

Definition binary_sep : string := " with Content-Type: ".

Section WithParse.
(** [url.Parse] *)
Variable url_parse : string -> option GoURL.URL.

(** [WriteBinaryOutput]: the error it returns ([None] for nil) and the new
    [binaryFindings]. *)
Definition WriteBinaryOutput (line : string) (binaryFindings : gmap string (list BinaryFinding))
  : option string * gmap string (list BinaryFinding) :=
  match Split line binary_sep with
  | [p0; p1] =>
      let fileURL := TrimSpace p0 in
      let contentType := TrimSpace p1 in
      match url_parse fileURL with
      | None => (Some "failed to parse URL", binaryFindings)
      | Some u =>
          let host := Scheme u ++ "://" ++ Host u in
          let existing := default [] (binaryFindings !! host) in
          if existsb (fun f => String.eqb (URL f) fileURL) existing
          then (None, binaryFindings)
          else (None, <[host := app existing [mkFinding fileURL contentType]]> binaryFindings)
      end
  | _ => (Some "invalid binary output format", binaryFindings)
  end.

End WithParse.

(** [writeSortedBinaryFindings]: the chunks written, in order. *)
Definition writeSortedBinaryFindings (binaryFindings : gmap string (list BinaryFinding))
  : list Chunk :=
  if Nat.eqb (size binaryFindings) 0 then []
  else
    let hosts := merge_sort String.le (map fst (map_to_list binaryFindings)) in
    flat_map (fun host =>
      let findings := default [] (binaryFindings !! host) in
      match findings with
      | [] => []
      | _ => Separator host (length findings) :: map (fun f => UrlLine (URL f)) findings
      end) hosts.

(** The group key [WriteBinaryOutput] files a URL under. *)
Definition group_key (url_parse : string -> option GoURL.URL) (fileURL : string) : option string :=
  match url_parse fileURL with
  | Some u => Some (Scheme u ++ "://" ++ Host u)
  | None => None
  end.

(** The [WriteBinaryOutput] calls of a run, in arrival order. *)
Definition write_lines (url_parse : string -> option GoURL.URL) (lines : list string)
    (binaryFindings : gmap string (list BinaryFinding)) : gmap string (list BinaryFinding) :=
  fold_left (fun m line => snd (WriteBinaryOutput url_parse line m)) lines binaryFindings.

(** The group headers and the URL lines of a written file, in order. *)
Definition chunk_headers (cs : list Chunk) : list string :=
  flat_map (fun c => match c with Separator h _ => [h] | UrlLine _ => [] end) cs.
Definition chunk_urls (cs : list Chunk) : list string :=
  flat_map (fun c => match c with UrlLine u => [u] | Separator _ _ => [] end) cs.

(** The content of [binary_found.txt] after [Close]. *)
Definition binary_file (binaryFindings : gmap string (list BinaryFinding)) : string :=
  String.concat "" (map render_chunk (writeSortedBinaryFindings binaryFindings)).

End Output.

(** ** [FileChecker.CheckSpecificFile] ([filechecker/filechecker.go]) *)

Module FileChecker.
Import GoStr.

(** What the HTTP layer does for a GET of a URL: [http.NewRequest] rejects
    it, [Do] fails, or a response with its status and [Content-Type]. *)
Inductive HttpOutcome :=
| RequestInvalid
| TransportError
| Response (status : Z) (contentType : string).

Definition binaryContentTypes : list string :=
  ["application/octet-stream"; "application/x-executable";
   "application/x-msdos-program"; "application/x-msdownload";
   "application/exe"; "application/binary"].

Definition isBinaryContent (contentType : string) : bool :=
  existsb (Contains contentType) binaryContentTypes.

(** [CheckSpecificFile]: its result [(found, contentType, err)] and the
    HTTP requests it sends. *)
Definition CheckSpecificFile (http : string -> HttpOutcome) (checkEnabled : bool)
    (baseURL fileName : string)
  : (bool * string * option string) * list string :=
  if negb checkEnabled then ((false, "", Some "file checking functionality is disabled"), [])
  else
    let baseURL := TrimSuffix baseURL "/" in
    let fileURL := baseURL ++ "/" ++ fileName in
    match http fileURL with
    | RequestInvalid => ((false, "", Some "failed to create request"), [])
    | TransportError => ((false, "", Some "failed to check file"), [fileURL])
    | Response status contentType =>
        if negb (Z.eqb status 200) then ((false, "", Some "server returned non-OK status"), [fileURL])
        else if isBinaryContent contentType then ((true, contentType, None), [fileURL])
        else ((false, contentType, Some "file is not binary content"), [fileURL])
    end.

(** [CheckFileURL] (a HEAD request). *)
Definition CheckFileURL (http : string -> HttpOutcome) (checkEnabled : bool)
    (fileURL : string) : (bool * string * option string) * list string :=
  if negb checkEnabled then ((false, "", Some "file checking functionality is disabled"), [])
  else
    match http fileURL with
    | RequestInvalid => ((false, "", Some "failed to create request"), [])
    | TransportError => ((false, "", Some "failed to check file"), [fileURL])
    | Response status contentType =>
        if negb (Z.eqb status 200) then ((false, "", Some "server returned non-OK status"), [fileURL])
        else if isBinaryContent contentType then ((true, contentType, None), [fileURL])
        else ((false, contentType, Some "file is not binary content"), [fileURL])
    end.

End FileChecker.

(** ** The environment: Go library functions and the network *)

Module Env.
Import GoURL.

(** What the crawler sees of a GET by [Client.CheckHostAndFetch]. *)
Record FetchResult := mkFetch { f_online : bool; f_body : string; f_err : bool }.

Record Env := mkEnv {
  (** [strings.ToLower] *)
  ToLower : string -> string;
  (** goquery's parse of an HTML body followed by [Find("a")] and
      [Attr("href")]: [None] when parsing fails, otherwise one entry per
      anchor, its [href] when present. *)
  parseAnchors : string -> option (list (option string));
  (** [url.Parse] *)
  url_parse : string -> option URL;
  (** [url.Parse(href)] followed by [baseURL.ResolveReference(..).String()];
      [None] when [href] does not parse. *)
  resolve : string -> string -> option string;
  (** [Client.CheckHostAndFetch] of a URL. *)
  fetch : string -> FetchResult;
  (** The HTTP outcome of a request of the file checker. *)
  http : string -> FileChecker.HttpOutcome;
  (** [time.Now()] *)
  now : GoTime.Time;
  (** Whether [fmt.Fprintln] to the buffered raw output returns an error,
      given the lines this worker handed to it before and the line
      written (the [bufio.Writer] fails once writing its buffer to the
      file fails). *)
  rawWriteFails : list string -> string -> bool;
  (** The same for the filtered output. *)
  filteredWriteFails : list string -> string -> bool
}.

End Env.

(** ** Configuration ([config.Config], [config.Query]) *)

Module Config.

Record Config := mkConfig {
  MaxLinksPerDirectory : Z;
  MaxTotalLinks : Z;
  MaxSkipsBeforeBlock : Z;
  EnableBlocklist : bool
}.

Record Query := mkQuery { Recursive : string; MaxDepth : Z }.

End Config.

(** ** The directory scanner ([scanners/directory.go]) *)

Module Scanner.
Import GoStr GoURL Env Config.

Definition is_nav (href : string) : bool :=
  String.eqb href "../" || String.eqb href ".." || String.eqb href "." ||
  String.eqb href "/".

Definition directoryIndicators : list string :=
  ["index of"; "directory listing"; "parent directory"; "<title>index of";
   "apache/"; "nginx/"].

Section WithEnv.
Variable E : Env.

(** [IsDirectoryListing] *)
Definition IsDirectoryListing (htmlContent : string) : bool :=
  let content := ToLower E htmlContent in
  if existsb (Contains content) directoryIndicators then true
  else
    match parseAnchors E htmlContent with
    | None => false
    | Some anchors =>
        let linkCount :=
          length (List.filter (fun a => match a with
                                   | Some href => negb (is_nav href)
                                   | None => false
                                   end) anchors) in
        Nat.ltb 5 linkCount
    end.

(** [extractLinks] *)
Definition extractLinks (baseURLStr htmlContent : string) : list string :=
  match parseAnchors E htmlContent with
  | None => []
  | Some anchors =>
      match url_parse E baseURLStr with
      | None => []
      | Some _ =>
          omap (fun a => match a with
                         | None => None
                         | Some href => if is_nav href then None else resolve E baseURLStr href
                         end) anchors
      end
  end.

(** [isDirectory] *)
Definition isDirectory (url : string) : bool :=
  HasSuffix url "/" ||
  (let lastPart := final_segment url in
   negb (Contains lastPart ".") && negb (String.eqb lastPart "")).

(** [ScanHost] *)
Definition ScanHost (hostURL htmlContent : string) : list string :=
  extractLinks hostURL htmlContent.

(** What other workers do to the scanner's shared [totalLinksCount]
    between two atomic operations of this walk: another
    [ScanHostRecursive] resetting it, or another walk adding its files. *)
Inductive OtherOp := OtherStore0 | OtherAdd (n : Z).

Definition apply_other (c : Z) (op : OtherOp) : Z :=
  match op with OtherStore0 => 0%Z | OtherAdd n => (c + n)%Z end.

(** The state of one walk: the shared counter and the schedule of other
    workers' operations on it (one batch before each atomic operation of
    this walk; an empty schedule is a walk running alone), the [visited]
    map and [allLinks] slice, and what the walk does: [skipCallback]
    calls, directory fetches, and the files each node adds to the counter. *)
Record Walk := mkWalk {
  w_count : Z;
  w_sched : list (list OtherOp);
  w_visited : gset string;
  w_allLinks : list string;
  w_skips : list string;
  w_fetches : list string;
  w_adds : list (string * nat)
}.

(** Other workers act before an atomic operation on the counter. *)
Definition interfere (w : Walk) : Walk :=
  match w_sched w with
  | [] => w
  | ops :: rest =>
      mkWalk (fold_left apply_other ops (w_count w)) rest (w_visited w)
        (w_allLinks w) (w_skips w) (w_fetches w) (w_adds w)
  end.

Definition add_skip (url : string) (w : Walk) : Walk :=
  mkWalk (w_count w) (w_sched w) (w_visited w) (w_allLinks w)
    (app (w_skips w) [url]) (w_fetches w) (w_adds w).

Definition add_visited (url : string) (w : Walk) : Walk :=
  mkWalk (w_count w) (w_sched w) ({[url]} ∪ w_visited w) (w_allLinks w)
    (w_skips w) (w_fetches w) (w_adds w).

Definition append_links (files : list string) (w : Walk) : Walk :=
  mkWalk (w_count w) (w_sched w) (w_visited w) (app (w_allLinks w) files)
    (w_skips w) (w_fetches w) (w_adds w).

(** [atomic.AddInt64(&ds.totalLinksCount, len(files))] *)
Definition add_count (url : string) (n : nat) (w : Walk) : Walk :=
  mkWalk (w_count w + Z.of_nat n)%Z (w_sched w) (w_visited w) (w_allLinks w)
    (w_skips w) (w_fetches w) (app (w_adds w) [(url, n)]).

Definition add_fetch (url : string) (w : Walk) : Walk :=
  mkWalk (w_count w) (w_sched w) (w_visited w) (w_allLinks w)
    (w_skips w) (app (w_fetches w) [url]) (w_adds w).

(** [scanRecursive].  [fuel] bounds the recursion depth; it starts at
    [maxDepth], so it is positive at every recursive call
    ([currentDepth + 1 < maxDepth]). *)
Fixpoint scanRecursive (fuel : nat) (cfg : Config) (baseURL htmlContent : string)
    (currentDepth maxDepth : Z) (w : Walk) {struct fuel} : Walk :=
  let w := interfere w in
  let currentCount := w_count w in
  if (0 <? MaxTotalLinks cfg)%Z && (MaxTotalLinks cfg <? currentCount)%Z then
    add_skip baseURL w
  else if bool_decide (baseURL ∈ w_visited w) || (maxDepth <=? currentDepth)%Z then w
  else
    let w := add_visited baseURL w in
    let links := extractLinks baseURL htmlContent in
    let links :=
      if (0 <? MaxLinksPerDirectory cfg)%Z &&
         (MaxLinksPerDirectory cfg <? Z.of_nat (length links))%Z
      then firstn (Z.to_nat (MaxLinksPerDirectory cfg)) links else links in
    let files := List.filter (fun l => negb (isDirectory l)) links in
    let directories := List.filter isDirectory links in
    let w := append_links files w in
    let w := interfere w in
    let w := add_count baseURL (length files) w in
    if (currentDepth + 1 <? maxDepth)%Z then
      fold_left (fun w dirURL =>
        let w := add_fetch dirURL w in
        let r := fetch E dirURL in
        if f_err r || negb (f_online r) then w
        else if IsDirectoryListing (f_body r) then
          match fuel with
          | S f => scanRecursive f cfg dirURL (f_body r) (currentDepth + 1) maxDepth w
          | O => w
          end
        else w) directories w
    else w.

(** [ScanHostRecursive]: starts from the shared counter [count] and the
    schedule [sched]; the file URLs it returns are [w_allLinks]. *)
Definition ScanHostRecursive (cfg : Config) (hostURL htmlContent : string)
    (maxDepth : Z) (count : Z) (sched : list (list OtherOp)) : Walk :=
  if (maxDepth <=? 0)%Z then
    mkWalk count sched ∅ (ScanHost hostURL htmlContent) [] [] []
  else
    scanRecursive (Z.to_nat maxDepth) cfg hostURL htmlContent 0 maxDepth
      (mkWalk 0 sched ∅ [] [] [] []).

End WithEnv.

(** The budget bookkeeping of a walk running alone: no other operation
    on the counter is scheduled, the counter is the sum of the walk's own
    additions, every file URL collected was counted, and each addition
    was made while the counter did not exceed [maxTotalLinks]. *)
Definition walk_inv (cfg : Config) (w : Walk) : Prop :=
  w_sched w = [] /\
  w_count w = Z.of_nat (list_sum (map snd (w_adds w))) /\
  length (w_allLinks w) = list_sum (map snd (w_adds w)) /\
  (forall pre x post, w_adds w = app pre (x :: post) ->
     (Z.of_nat (list_sum (map snd pre)) <= MaxTotalLinks cfg)%Z).

End Scanner.

(** ** The crawler worker ([crawler/worker.go]) *)

Module Worker.
Import GoStr GoURL Env Config Scanner Output FileChecker.

Record Stats := mkStats {
  onlineHosts : nat; totalFiles : nat; filteredFiles : nat;
  checkedFiles : nat; binaryFilesFound : nat; writeErrors : nat
}.

(** Calls the worker makes to its collaborators, in order. *)
Inductive Call :=
| CallFetch (url : string)
| CallCheckSpecificFile (baseURL fileName : string)
| CallCheckFileURL (url : string)
| CallScanHost (url : string)
| CallScanHostRecursive (url : string).

(** The fields of [Worker] that do not change during a run. *)
Record WorkerConfig := mkWorkerConfig {
  config : Config;
  queryConfig : Query;
  extensionMap : gmap string bool;
  checkEnabled : bool;
  hasFileChecker : bool;   (** [w.fileChecker != nil] *)
  targetFileName : string
}.

(** The suppression state: [skippedHosts], [blockedHosts], [skipCounters]
    and the persistent [blocklist]. *)
Record Suppression := mkSuppression {
  skippedHosts : gset string;
  blockedHosts : gset string;
  skipCounters : gmap string Z;
  blocklist : Blocklist.Blocklist
}.

(** What the output [Writer] has received: the lines handed to
    [WriteRawOutput] and [WriteFilteredOutput], whether or not the write
    returned an error, and its [binaryFindings]. *)
Record Sink := mkSink {
  raw : list string;
  filtered : list string;
  binaryFindings : gmap string (list BinaryFinding)
}.

(** The mutable state a worker reads and writes; [linksCount] and [sched]
    are the shared [totalLinksCount] of the [DirectoryScanner] and the
    operations of the other workers on it. *)
Record Worker := mkWorker {
  sup : Suppression;
  stats : Stats;
  sink : Sink;
  linksCount : Z;
  sched : list (list OtherOp);
  calls : list Call
}.

Definition set_sup (p : Suppression) (w : Worker) : Worker :=
  mkWorker p (stats w) (sink w) (linksCount w) (sched w) (calls w).
Definition set_stats (st : Stats) (w : Worker) : Worker :=
  mkWorker (sup w) st (sink w) (linksCount w) (sched w) (calls w).
Definition set_sink (k : Sink) (w : Worker) : Worker :=
  mkWorker (sup w) (stats w) k (linksCount w) (sched w) (calls w).
Definition set_scanner (c : Z) (sc : list (list OtherOp)) (w : Worker) : Worker :=
  mkWorker (sup w) (stats w) (sink w) c sc (calls w).
Definition add_call (c : Call) (w : Worker) : Worker :=
  mkWorker (sup w) (stats w) (sink w) (linksCount w) (sched w) (app (calls w) [c]).

Definition inc_online (s : Stats) : Stats :=
  mkStats (S (onlineHosts s)) (totalFiles s) (filteredFiles s) (checkedFiles s)
    (binaryFilesFound s) (writeErrors s).
Definition inc_total (s : Stats) : Stats :=
  mkStats (onlineHosts s) (S (totalFiles s)) (filteredFiles s) (checkedFiles s)
    (binaryFilesFound s) (writeErrors s).
Definition inc_filtered (s : Stats) : Stats :=
  mkStats (onlineHosts s) (totalFiles s) (S (filteredFiles s)) (checkedFiles s)
    (binaryFilesFound s) (writeErrors s).
Definition inc_checked (s : Stats) : Stats :=
  mkStats (onlineHosts s) (totalFiles s) (filteredFiles s) (S (checkedFiles s))
    (binaryFilesFound s) (writeErrors s).
Definition inc_binary (s : Stats) : Stats :=
  mkStats (onlineHosts s) (totalFiles s) (filteredFiles s) (checkedFiles s)
    (S (binaryFilesFound s)) (writeErrors s).
Definition inc_writeErrors (s : Stats) : Stats :=
  mkStats (onlineHosts s) (totalFiles s) (filteredFiles s) (checkedFiles s)
    (binaryFilesFound s) (S (writeErrors s)).

(** [strip trailing slashes] of [filepath.Base] *)
Fixpoint strip_slashes (s : string) : string :=
  match s with
  | EmptyString => EmptyString
  | String c r =>
      let r' := strip_slashes r in
      if Ascii.eqb c "/"%char && String.eqb r' "" then EmptyString else String c r'
  end.

(** [filepath.Base] *)
Definition Base (path : string) : string :=
  if String.eqb path "" then "."
  else
    let path := strip_slashes path in
    if String.eqb path "" then "/" else final_segment path.

Section WithEnv.
Variable E : Env.
Variable wc : WorkerConfig.

(** [WriteRawOutput] and [WriteFilteredOutput]: the line is handed to the
    writer, and a returned error is counted in [writeErrors]. *)
Definition write_raw (line : string) (w : Worker) : Worker :=
  let fails := rawWriteFails E (raw (sink w)) line in
  let w := set_sink (mkSink (app (raw (sink w)) [line]) (filtered (sink w))
                       (binaryFindings (sink w))) w in
  if fails then set_stats (inc_writeErrors (stats w)) w else w.
Definition write_filtered (line : string) (w : Worker) : Worker :=
  let fails := filteredWriteFails E (filtered (sink w)) line in
  let w := set_sink (mkSink (raw (sink w)) (app (filtered (sink w)) [line])
                       (binaryFindings (sink w))) w in
  if fails then set_stats (inc_writeErrors (stats w)) w else w.

(** [WriteBinaryOutput], counting a returned error in [writeErrors]. *)
Definition write_binary (line : string) (w : Worker) : Worker :=
  let '(err, bf) := WriteBinaryOutput (url_parse E) line (binaryFindings (sink w)) in
  let w := set_sink (mkSink (raw (sink w)) (filtered (sink w)) bf) w in
  match err with
  | Some _ => set_stats (inc_writeErrors (stats w)) w
  | None => w
  end.

(** [extractBaseHost] *)
Definition extractBaseHost (fullURL : string) : string :=
  match url_parse E fullURL with
  | None => fullURL
  | Some u => if String.eqb (Hostname u) "" then Host u else Hostname u
  end.

(** The [skipCallback] closure of [processDirectoryContent] for the host
    [originURL], called with the URL of the skipped directory. *)
Definition skipCallback (originURL : string) (w : Worker) (hostURL : string) : Worker :=
  let baseHost := extractBaseHost hostURL in
  let p := sup w in
  let newSkipCount := (default 0 (skipCounters p !! baseHost) + 1)%Z in
  let counters := <[baseHost := newSkipCount]> (skipCounters p) in
  let K := MaxSkipsBeforeBlock (config wc) in
  if (0 <? K)%Z && (K <=? newSkipCount)%Z then
    set_sup (mkSuppression ({[originURL]} ∪ skippedHosts p) ({[baseHost]} ∪ blockedHosts p)
               counters (Blocklist.AddHost (now E) baseHost (blocklist p))) w
  else
    set_sup (mkSuppression (skippedHosts p) (blockedHosts p) counters (blocklist p)) w.

(** [FileChecker.ShouldCheck] (the checker is configured with
    [checkEnabled] and [targetFileName]). *)
Definition ShouldCheck (fileURL : string) : bool :=
  checkEnabled wc &&
  (if String.eqb (targetFileName wc) "" then true
   else String.eqb (Base fileURL) (targetFileName wc)).

(** [checkFileContent] *)
Definition checkFileContent (fileURL : string) (w : Worker) : Worker :=
  let w := set_stats (inc_checked (stats w)) w in
  let w := add_call (CallCheckFileURL fileURL) w in
  let '((found, contentType, err), _) := CheckFileURL (http E) (checkEnabled wc) fileURL in
  match err with
  | None =>
      if found then
        let w := write_raw ("Found binary file: " ++ fileURL ++ " with Content-Type: " ++ contentType) w in
        let w := write_binary (fileURL ++ binary_sep ++ contentType) w in
        set_stats (inc_binary (stats w)) w
      else w
  | Some _ => w
  end.

(** [processFoundFile] with the host's local [foundUrls] map. *)
Definition processFoundFile (acc : gset string * Worker) (fileURL : string)
  : gset string * Worker :=
  let '(foundUrls, w) := acc in
  if bool_decide (fileURL ∈ foundUrls) then (foundUrls, w)
  else
    let foundUrls := {[fileURL]} ∪ foundUrls in
    let w := set_stats (inc_total (stats w)) w in
    let w := write_raw ("Found file: " ++ fileURL) w in
    if Filter.ShouldFilter (ToLower E) (extensionMap wc) fileURL then
      let w := set_stats (inc_filtered (stats w)) w in
      let w := write_filtered fileURL w in
      if checkEnabled wc && hasFileChecker wc && ShouldCheck fileURL
      then (foundUrls, checkFileContent fileURL w)
      else (foundUrls, w)
    else (foundUrls, w).

(** [processDirectoryContent].  The walk calls [skipCallback] as it goes;
    the callback only touches the suppression state, which the walk does
    not read, so the calls are replayed in order after the walk. *)
Definition processDirectoryContent (hostURL htmlContent : string) (w : Worker) : Worker :=
  let baseHost := extractBaseHost hostURL in
  if Blocklist.IsBlocked baseHost (blocklist (sup w)) then w
  else if bool_decide (baseHost ∈ blockedHosts (sup w)) then w
  else if negb (IsDirectoryListing E htmlContent) then w
  else
    let recursive := String.eqb (Recursive (queryConfig wc)) "yes" in
    let maxDepth := MaxDepth (queryConfig wc) in
    let '(fileURLs, w) :=
      if recursive && (1 <? maxDepth)%Z then
        let w := add_call (CallScanHostRecursive hostURL) w in
        let wk := ScanHostRecursive E (config wc) hostURL htmlContent maxDepth
                    (linksCount w) (sched w) in
        let w := fold_left (fun w u => add_call (CallFetch u) w) (w_fetches wk) w in
        let w := set_scanner (w_count wk) (w_sched wk) w in
        let w := fold_left (skipCallback hostURL) (w_skips wk) w in
        (w_allLinks wk, w)
      else (ScanHost E hostURL htmlContent, add_call (CallScanHost hostURL) w) in
    snd (fold_left processFoundFile fileURLs (∅, w)).

(** [processHost] *)
Definition processHost (hostURL : string) (w : Worker) : Worker :=
  let baseHost := extractBaseHost hostURL in
  if Blocklist.IsBlocked baseHost (blocklist (sup w)) then w
  else if bool_decide (baseHost ∈ blockedHosts (sup w)) then w
  else if bool_decide (hostURL ∈ skippedHosts (sup w)) then w
  else
    let w := add_call (CallFetch hostURL) w in
    let r := fetch E hostURL in
    if f_err r then w
    else if negb (f_online r) then w
    else
      let w := set_stats (inc_online (stats w)) w in
      let w := write_raw hostURL w in
      let targetedCheckMode :=
        checkEnabled wc && hasFileChecker wc && negb (String.eqb (targetFileName wc) "") in
      let '(foundTargetFile, w) :=
        if targetedCheckMode then
          let w := add_call (CallCheckSpecificFile hostURL (targetFileName wc)) w in
          let '((found, contentType, err), _) :=
            CheckSpecificFile (http E) (checkEnabled wc) hostURL (targetFileName wc) in
          match err with
          | None =>
              if found then
                let binaryURL := hostURL ++ "/" ++ targetFileName wc in
                let w := write_raw ("Found binary file: " ++ binaryURL ++
                                    " with Content-Type: " ++ contentType) w in
                let w := write_binary (binaryURL ++ binary_sep ++ contentType) w in
                let w := set_stats (inc_binary (inc_checked (stats w))) w in
                (true, w)
              else (false, w)
          | Some _ => (false, w)
          end
        else (false, w) in
      if negb targetedCheckMode || negb foundTargetFile
      then processDirectoryContent hostURL (f_body r) w
      else w.

End WithEnv.

(** The worker configured with another query. *)
Definition with_query (wc : WorkerConfig) (q : Query) : WorkerConfig :=
  mkWorkerConfig (config wc) q (extensionMap wc) (checkEnabled wc) (hasFileChecker wc)
    (targetFileName wc).

(** A sequence of skip events [(originURL, skipped directory URL)], each
    handled by the [skipCallback] of its host, in order. *)
Definition run_skips (E : Env) (wc : WorkerConfig) (evs : list (string * string))
    (w : Worker) : Worker :=
  fold_left (fun w e => skipCallback E wc e.1 w e.2) evs w.

(** The number of skip events recorded for the base hostname [h]. *)
Definition skip_count (E : Env) (h : string) (evs : list (string * string)) : nat :=
  length (List.filter (fun e => String.eqb (extractBaseHost E e.2) h) evs).

End Worker.

(** ** A concrete environment for the examples *)

Module Fixtures.
Import GoStr GoURL Env Config Scanner FileChecker Worker.

(** The authority of an ["http://"] URL: the bytes up to the next ['/']. *)
Fixpoint take_until (c : ascii) (s : string) : string :=
  match s with
  | EmptyString => EmptyString
  | String d r => if Ascii.eqb d c then EmptyString else String d (take_until c r)
  end.

Definition toy_url_parse (s : string) : option URL :=
  if String.prefix "http://" s then
    let host := take_until "/"%char (substring 7 (String.length s - 7) s) in
    Some (mkURL "http" host (take_until ":"%char host))
  else None.

(** A listing body is a list of white-space separated hrefs. *)
Definition toy_anchors (html : string) : option (list (option string)) :=
  Some (map Some (Fields html)).

Definition toy_resolve (base href : string) : option string :=
  Some (if HasSuffix base "/" then base ++ href else base ++ "/" ++ href).

Definition toy_now : GoTime.Time := GoTime.mkTime 2026 10 15 0 0 0 0 0.

Definition toy_env (fetch : string -> FetchResult) (http : string -> HttpOutcome) : Env :=
  mkEnv ToLowerAscii toy_anchors toy_url_parse toy_resolve fetch http toy_now
    (fun _ _ => false) (fun _ _ => false).

Definition no_fetch (_ : string) : FetchResult := mkFetch false "" false.

Definition binary_http (_ : string) : HttpOutcome := Response 200 "application/x-msdownload".

Definition empty_stats : Stats := mkStats 0 0 0 0 0 0.

Definition fresh_worker (enableBlocklist : bool) : Worker :=
  mkWorker (mkSuppression ∅ ∅ ∅ (Blocklist.NewBlocklist enableBlocklist)) empty_stats
    (mkSink [] [] ∅) 0 [] [].

Definition base_config : Config := mkConfig 0 0 0 true.

Definition targeted_config : WorkerConfig :=
  mkWorkerConfig base_config (mkQuery "no" 0) ∅ true true "payload.exe".

End Fixtures.

(** ** The rest of the blocklist: its getters and the background saver
    ([filter/blocklist.go]) *)

Module BlocklistRun.
Import GoTime Blocklist.

(** [GetBlockedCount] *)
Definition GetBlockedCount (b : Blocklist) : nat :=
  if negb (enabled b) then 0 else size (hosts b).

(** [GetBlockedHosts] (a copy of the map; an empty map when disabled). *)
Definition GetBlockedHosts (b : Blocklist) : gmap string Time :=
  if negb (enabled b) then ∅ else hosts b.

(** An enabled blocklist together with its [saveWorker] goroutine.
    [savePending] of the blocklist is the capacity-1 [saveChan];
    [sv_pending] is the worker's [pendingSave]; [sv_timer] is true while
    [saveTimer] is armed; [sv_stop] is true once [Close] has closed
    [stopChan]; [sv_done] once [saveWorker] has returned.  [sv_saved] is
    the hosts and timestamps the data lines of the blocklist file state,
    and [sv_failed] records that a [Save] called by the worker did not
    write the whole file. *)
Record Saver := mkSaver {
  sv_b : Blocklist;
  sv_pending : bool;
  sv_timer : bool;
  sv_stop : bool;
  sv_done : bool;
  sv_saved : gmap string Time;
  sv_failed : bool
}.

(** The state after [NewBlocklist] and [Load]: the timer drained, nothing
    pending; the file states [saved0], whatever [Load] made of it. *)
Definition saver_start (saved0 : gmap string Time) (b : Blocklist) : Saver :=
  mkSaver b false false false false saved0 false.

(** How a [Save] ends: every write done; [os.Create] failing (the old file
    stays, the error is logged); or a [Fprintf] failing after [os.Create]
    (its error is ignored), the file then stating some [m]. *)
Inductive SaveResult :=
| SaveOK
| CreateFails
| WriteFails (m : gmap string Time).

(** [Save] as called by [saveWorker]: it writes a copy of [hosts], each
    timestamp through [Format(time.RFC3339)], which keeps whole seconds. *)
Definition saver_save (r : SaveResult) (s : Saver) : gmap string Time * bool :=
  match r with
  | SaveOK => (truncate_sec <$> hosts (sv_b s), sv_failed s)
  | CreateFails => (sv_saved s, true)
  | WriteFails m => (m, true)
  end.

(** One atomic step of the system: an [AddHost] of another goroutine (at
    time [now]), or one iteration of the [select] loop of [saveWorker] on
    whichever of its channels is ready, or [Close] closing [stopChan].
    [r] is how a [Save] ends. *)
Inductive saver_step : Saver -> Saver -> Prop :=
| step_AddHost (now : Time) (h : string) (s : Saver) :
    saver_step s (mkSaver (AddHost now h (sv_b s)) (sv_pending s) (sv_timer s)
                    (sv_stop s) (sv_done s) (sv_saved s) (sv_failed s))
| step_saveChan (s : Saver) :
    sv_done s = false -> savePending (sv_b s) = true ->
    saver_step s (mkSaver (mkBlocklist (hosts (sv_b s)) (enabled (sv_b s)) false)
                    true (if sv_pending s then sv_timer s else true)
                    (sv_stop s) false (sv_saved s) (sv_failed s))
| step_saveTimer (r : SaveResult) (s : Saver) :
    sv_done s = false -> sv_timer s = true ->
    saver_step s
      (if sv_pending s then
         mkSaver (sv_b s) false false (sv_stop s) false
           (saver_save r s).1 (saver_save r s).2
       else mkSaver (sv_b s) false false (sv_stop s) false (sv_saved s) (sv_failed s))
| step_Close (s : Saver) :
    sv_stop s = false ->
    saver_step s (mkSaver (sv_b s) (sv_pending s) (sv_timer s) true (sv_done s)
                    (sv_saved s) (sv_failed s))
| step_stopChan (r : SaveResult) (s : Saver) :
    sv_done s = false -> sv_stop s = true ->
    saver_step s
      (if sv_pending s then
         mkSaver (sv_b s) false false true true (saver_save r s).1 (saver_save r s).2
       else mkSaver (sv_b s) false false true true (sv_saved s) (sv_failed s)).

End BlocklistRun.

(** ** [Writer.Close] ([output/writer.go]) *)

Module WriterClose.
Import Output.

Inductive OutFile := RawOut | FilteredOut | BinaryOut.

(** The I/O operations of [Close]: a [Flush] of a [bufio.Writer], a
    [WriteString] of a piece of [writeSortedBinaryFindings], a [Close] of
    an [*os.File]. *)
Inductive IoOp :=
| Flush (f : OutFile)
| WriteChunk (c : Chunk)
| CloseFile (f : OutFile).

(** Which of the six fields of [Writer] are non-nil. *)
Record Handles := mkHandles {
  rawFile : bool; filteredFile : bool; binaryFile : bool;
  rawWriter : bool; filteredWriter : bool; binaryWriter : bool
}.

(** The writer [NewWriter] returns. *)
Definition opened : Handles := mkHandles true true true true true true.

(** The error of a chain of [if err != nil { return err }]: the first
    non-nil one. *)
Fixpoint first_error (errs : list (option string)) : option string :=
  match errs with
  | [] => None
  | Some e :: _ => Some e
  | None :: r => first_error r
  end.

Section WithIo.
(** The error each operation returns ([None] for nil). *)
Variable io : IoOp -> option string.

(** The loop of [writeSortedBinaryFindings] over the pieces to write: it
    returns at the first failing [WriteString], wrapping its error. *)
Fixpoint write_chunks (cs : list Chunk) : option string * list IoOp :=
  match cs with
  | [] => (None, [])
  | c :: rest =>
      match io (WriteChunk c) with
      | Some e =>
          (Some (match c with
                 | Separator _ _ => "failed to write host separator: " ++ e
                 | UrlLine _ => "failed to write binary finding: " ++ e
                 end), [WriteChunk c])
      | None => let '(err, ops) := write_chunks rest in (err, WriteChunk c :: ops)
      end
  end.

(** [Close]: the error it returns, the operations it performs in order,
    and the fields afterwards. *)
Definition Close (binaryFindings : gmap string (list BinaryFinding)) (w : Handles)
  : option string * list IoOp * Handles :=
  let '(rawFlushErr, ops1) :=
    if rawWriter w then (io (Flush RawOut), [Flush RawOut]) else (None, []) in
  let '(filteredFlushErr, ops2) :=
    if filteredWriter w then (io (Flush FilteredOut), [Flush FilteredOut]) else (None, []) in
  let '(binaryFlushErr, ops3) :=
    if binaryWriter w then
      let '(sortErr, wops) := write_chunks (writeSortedBinaryFindings binaryFindings) in
      let flushErr := io (Flush BinaryOut) in
      (match sortErr with Some e => Some e | None => flushErr end,
       app wops [Flush BinaryOut])
    else (None, []) in
  let '(rawErr, ops4) :=
    if rawFile w then (io (CloseFile RawOut), [CloseFile RawOut]) else (None, []) in
  let '(filteredErr, ops5) :=
    if filteredFile w then (io (CloseFile FilteredOut), [CloseFile FilteredOut]) else (None, []) in
  let '(binaryErr, ops6) :=
    if binaryFile w then (io (CloseFile BinaryOut), [CloseFile BinaryOut]) else (None, []) in
  (first_error [rawFlushErr; filteredFlushErr; binaryFlushErr; rawErr; filteredErr; binaryErr],
   app ops1 (app ops2 (app ops3 (app ops4 (app ops5 ops6)))),
   mkHandles false false false false false false).

End WithIo.

(** The error a failing operation contributes to the result of [Close]. *)
Definition reported (op : IoOp) (e : string) : string :=
  match op with
  | WriteChunk (Separator _ _) => "failed to write host separator: " ++ e
  | WriteChunk (UrlLine _) => "failed to write binary finding: " ++ e
  | _ => e
  end.

(** The error of the first operation of [ops] that fails. *)
Fixpoint first_failure (io : IoOp -> option string) (ops : list IoOp) : option string :=
  match ops with
  | [] => None
  | op :: rest =>
      match io op with
      | Some e => Some (reported op e)
      | None => first_failure io rest
      end
  end.

End WriterClose.

(** ** The slice-based extension filter ([filter], second version of
    [NewFilter]/[ShouldFilter]/[GetFilterExtensions]) *)

Module FilterSlice.
Import GoStr.

Section WithLower.
Variable ToLower : string -> string.

(** [NewFilter]: the caller's slice, each entry given a leading dot in
    place. *)
Definition NewFilter (extensions : list string) : list string :=
  map (fun ext => if HasPrefix ext "." then ext else "." ++ ext) extensions.

(** [ShouldFilter] *)
Definition ShouldFilter (extensions : list string) (fileURL : string) : bool :=
  if Nat.eqb (length extensions) 0 then false
  else
    let ext := ToLower (Ext fileURL) in
    existsb (fun filterExt => String.eqb (ToLower filterExt) ext) extensions.

End WithLower.

(** [GetFilterExtensions] *)
Definition GetFilterExtensions (extensions : list string) : list string := extensions.

End FilterSlice.

(** ** [GetFilterExtensions] of the map-based filter *)

Module FilterKeys.

(** The keys of [extensionMap], in the map's iteration order. *)
Definition GetFilterExtensions (extensionMap : gmap string bool) : list string :=
  map fst (map_to_list extensionMap).

End FilterKeys.

(* ================================================================== *)
(** * Properties *)
(* ================================================================== *)

(** ** Go string helpers *)

Module GoStrFacts.
Import GoStr.

Fixpoint has_slash (s : string) : bool :=
  match s with
  | EmptyString => false
  | String c r => Ascii.eqb c "/"%char || has_slash r
  end.

Lemma ext_scan_slash (s : string) (cand : option string) :
  has_slash s = true -> ext_scan s cand = ext_scan s None.
Proof.
  revert cand; induction s as [|c r IH]; intros cand Hs; simpl in *.
  - discriminate.
  - destruct (Ascii.eqb c "/"%char) eqn:Hc; [reflexivity|].
    simpl in Hs. destruct (Ascii.eqb c "."%char); [reflexivity|].
    apply IH. exact Hs.
Qed.

Lemma ext_scan_final_segment_from (s cur : string) :
  ext_scan (final_segment_from s cur) None =
  if has_slash s then ext_scan s None else ext_scan cur None.
Proof.
  revert cur; induction s as [|c r IH]; intros cur; simpl; [reflexivity|].
  destruct (Ascii.eqb c "/"%char) eqn:Hc; simpl.
  - rewrite IH. destruct (has_slash r); reflexivity.
  - rewrite IH. destruct (has_slash r) eqn:Hr; [|reflexivity].
    destruct (Ascii.eqb c "."%char); [|reflexivity].
    symmetry. apply ext_scan_slash. exact Hr.
Qed.

(** [filepath.Ext] of a URL string only depends on its final segment. *)
Lemma Ext_final_segment (s : string) : Ext s = Ext (final_segment s).
Proof.
  unfold Ext, final_segment. rewrite ext_scan_final_segment_from.
  destruct (has_slash s); reflexivity.
Qed.

End GoStrFacts.

(** ** The extension filter *)

Module FilterFacts.
Import GoStr Filter.

Lemma lookup_fold_insert (ToLower : string -> string) (exts : list string)
    (m : gmap string bool) (k : string) :
  fold_left (fun m ext => <[normalize ToLower ext := true]> m) exts m !! k =
  if decide (k ∈ map (normalize ToLower) exts) then Some true else m !! k.
Proof.
  revert m; induction exts as [|e exts IH]; intros m; simpl.
  - destruct (decide (k ∈ [])) as [Hin|]; [inversion Hin|reflexivity].
  - rewrite IH. destruct (decide (k ∈ map (normalize ToLower) exts)) as [Hin|Hnin];
      destruct (decide (k ∈ normalize ToLower e :: map (normalize ToLower) exts))
      as [Hin'|Hnin']; try reflexivity.
    + exfalso. apply Hnin'. right. exact Hin.
    + destruct (decide (normalize ToLower e = k)) as [->|Hne].
      * apply lookup_insert_eq.
      * exfalso. apply elem_of_cons in Hin' as [Heq|Hin']; [congruence|tauto].
    + rewrite lookup_insert_ne; [reflexivity|].
      intros Heq. apply Hnin'. rewrite Heq. left.
Qed.

Lemma NewFilter_lookup (ToLower : string -> string) (exts : list string)
    (k : string) :
  NewFilter ToLower exts !! k =
  if decide (k ∈ map (normalize ToLower) exts) then Some true else None.
Proof.
  unfold NewFilter. rewrite lookup_fold_insert.
  destruct (decide _); [reflexivity|]. apply lookup_empty.
Qed.

Example ShouldFilter_pdf :
  ShouldFilter ToLowerAscii (NewFilter ToLowerAscii ["PDF"]) "http://a.test/f.pdf"
  = true.
Proof. vm_compute. reflexivity. Qed.

Example ShouldFilter_txt :
  ShouldFilter ToLowerAscii (NewFilter ToLowerAscii [".pdf"]) "http://a.test/g.txt"
  = false.
Proof. vm_compute. reflexivity. Qed.

(** C9: [ShouldFilter] returns true exactly when the lower-cased extension
    of the URL's final path segment is one of the configured extensions,
    normalised by [NewFilter] (dot prefixed when missing, then lower-cased);
    with no configured extension it is false for every URL. *)
Theorem ShouldFilter_spec (ToLower : string -> string) (exts : list string) :
  (forall fileURL : string,
     ShouldFilter ToLower (NewFilter ToLower exts) fileURL = true <->
     ToLower (Ext (final_segment fileURL)) ∈ map (normalize ToLower) exts) /\
  (exts = [] -> forall fileURL : string,
     ShouldFilter ToLower (NewFilter ToLower exts) fileURL = false).
Proof.
  split.
  - intros fileURL. rewrite <- GoStrFacts.Ext_final_segment.
    unfold ShouldFilter. rewrite NewFilter_lookup.
    destruct (Nat.eqb (size (NewFilter ToLower exts)) 0) eqn:Hsz.
    + split; [discriminate|]. intros Hin. exfalso.
      apply Nat.eqb_eq, map_size_empty_iff in Hsz.
      pose proof (NewFilter_lookup ToLower exts (ToLower (Ext fileURL))) as Hl.
      rewrite Hsz, lookup_empty in Hl.
      destruct (decide _); [discriminate|contradiction].
    + destruct (decide _); split; intros H; first [reflexivity | assumption | discriminate | contradiction].
  - intros -> fileURL. reflexivity.
Qed.

End FilterFacts.

(** ** [CheckSpecificFile] *)

Module FileCheckerFacts.
Import GoStr FileChecker Fixtures.

Example CheckSpecificFile_found :
  CheckSpecificFile binary_http true "http://c.test/" "payload.exe" =
  ((true, "application/x-msdownload", None), ["http://c.test/payload.exe"]).
Proof. vm_compute. reflexivity. Qed.

(** C1 (as stated, refuted): a file name containing [".."] is not refused;
    with checking enabled the GET to ["http://a.test/../payload.exe"] is
    sent and, on a binary response, reported as found. *)
Lemma CheckSpecificFile_traversal_not_refused :
  Contains "../payload.exe" ".." = true /\
  CheckSpecificFile binary_http true "http://a.test" "../payload.exe" =
  ((true, "application/x-msdownload", None), ["http://a.test/../payload.exe"]).
Proof. split; vm_compute; reflexivity. Qed.

(** C1 (amended): [CheckSpecificFile] does not look at the file name.
    With checking enabled it sends exactly one GET, to the base URL with a
    trailing ["/"] trimmed, then ["/"], then the name, whenever
    [http.NewRequest] accepts that URL, and its result depends only on the
    response; with checking disabled it returns [found = false] with an
    error and sends nothing. *)
Theorem CheckSpecificFile_no_name_check :
  forall (http : string -> HttpOutcome) (baseURL fileName : string),
    (http (TrimSuffix baseURL "/" ++ "/" ++ fileName) <> RequestInvalid ->
     snd (CheckSpecificFile http true baseURL fileName) =
       [TrimSuffix baseURL "/" ++ "/" ++ fileName] /\
     (fst (fst (fst (CheckSpecificFile http true baseURL fileName))) = true <->
      exists contentType,
        http (TrimSuffix baseURL "/" ++ "/" ++ fileName) = Response 200 contentType /\
        isBinaryContent contentType = true)) /\
    (exists e, CheckSpecificFile http false baseURL fileName = ((false, "", Some e), [])).
Proof.
  intros http baseURL fileName. split.
  - intros Hreq. unfold CheckSpecificFile, negb. cbv beta iota zeta.
    destruct (http _) as [| |status ct] eqn:Hh; [contradiction| |].
    + split; [reflexivity|]. split; [discriminate|].
      intros (ct & Hr & _). discriminate.
    + destruct (Z.eqb status 200) eqn:Hs; cbv beta iota.
      * apply Z.eqb_eq in Hs as ->.
        destruct (isBinaryContent ct) eqn:Hb; cbv beta iota; (split; [reflexivity|]).
        -- split; [intros _; exists ct; split; [reflexivity | assumption] | reflexivity].
        -- split; [discriminate|]. intros (ct' & Hr & Hb'). injection Hr as <-.
           congruence.
      * split; [reflexivity|]. split; [discriminate|].
        intros (ct' & Hr & _). injection Hr as -> _. discriminate.
  - eexists. reflexivity.
Qed.

End FileCheckerFacts.

(** ** [WriteBinaryOutput] on malformed lines *)

Module OutputFacts.
Import GoStr GoURL Output Fixtures.

Example Split_url_with_separator :
  length (Split "http://a.test/x with Content-Type: y.exe with Content-Type: t" binary_sep) = 3%nat.
Proof. vm_compute. reflexivity. Qed.

(** C10: a line that does not split into exactly two parts around
    [" with Content-Type: "], or whose URL part does not parse, makes
    [WriteBinaryOutput] return an error and leaves [binaryFindings], hence
    the content of [binary_found.txt] at close, unchanged. *)
Theorem WriteBinaryOutput_malformed_unchanged :
  forall (url_parse : string -> option GoURL.URL) (line : string)
         (binaryFindings : gmap string (list BinaryFinding)),
    (length (Split line binary_sep) <> 2%nat \/
     exists p0 p1, Split line binary_sep = [p0; p1] /\ url_parse (TrimSpace p0) = None) ->
    exists e,
      WriteBinaryOutput url_parse line binaryFindings = (Some e, binaryFindings) /\
      binary_file (snd (WriteBinaryOutput url_parse line binaryFindings)) =
      binary_file binaryFindings.
Proof.
  intros url_parse line m H.
  assert (Hw : exists e, WriteBinaryOutput url_parse line m = (Some e, m)).
  { unfold WriteBinaryOutput.
    destruct H as [Hlen | (p0 & p1 & Hs & Hp)].
    - destruct (Split line binary_sep) as [|a [|b [|c l]]]; simpl in Hlen;
        try (eexists; reflexivity). exfalso. apply Hlen. reflexivity.
    - rewrite Hs, Hp. eexists. reflexivity. }
  destruct Hw as [e Hw]. exists e. rewrite Hw. split; reflexivity.
Qed.

Lemma WriteBinaryOutput_malformed_unchanged_witness :
  exists e, WriteBinaryOutput toy_url_parse "http://a.test/x.exe" ∅ = (Some e, ∅) /\
    binary_file (snd (WriteBinaryOutput toy_url_parse "http://a.test/x.exe" ∅)) =
    binary_file ∅.
Proof.
  apply WriteBinaryOutput_malformed_unchanged. left. vm_compute. discriminate.
Defined.

End OutputFacts.

(** ** The worker *)

Module WorkerFacts.
Import GoStr GoURL Env Config Scanner Output FileChecker Worker Fixtures.

(** Nothing but [processDirectoryContent] reads the query. *)
Lemma processFoundFile_query (E : Env) (wc : WorkerConfig) (q1 q2 : Query) :
  processFoundFile E (with_query wc q1) = processFoundFile E (with_query wc q2).
Proof. reflexivity. Qed.

Lemma processDirectoryContent_query (E : Env) (wc : WorkerConfig) (q1 q2 : Query)
    (hostURL htmlContent : string) (w : Worker) :
  (String.eqb (Recursive q1) "yes" && (1 <? MaxDepth q1)%Z) = false ->
  (String.eqb (Recursive q2) "yes" && (1 <? MaxDepth q2)%Z) = false ->
  processDirectoryContent E (with_query wc q1) hostURL htmlContent w =
  processDirectoryContent E (with_query wc q2) hostURL htmlContent w.
Proof.
  intros H1 H2. unfold processDirectoryContent. cbn [with_query queryConfig].
  rewrite H1, H2. rewrite (processFoundFile_query E wc q1 q2). reflexivity.
Qed.

Lemma processHost_query (E : Env) (wc : WorkerConfig) (q1 q2 : Query)
    (hostURL : string) (w : Worker) :
  (String.eqb (Recursive q1) "yes" && (1 <? MaxDepth q1)%Z) = false ->
  (String.eqb (Recursive q2) "yes" && (1 <? MaxDepth q2)%Z) = false ->
  processHost E (with_query wc q1) hostURL w = processHost E (with_query wc q2) hostURL w.
Proof.
  intros H1 H2. unfold processHost. cbn [with_query checkEnabled hasFileChecker targetFileName].
  destruct (Blocklist.IsBlocked _ _); [reflexivity|].
  destruct (bool_decide _); [reflexivity|].
  destruct (bool_decide _); [reflexivity|].
  destruct (f_err _); [reflexivity|].
  destruct (negb (f_online _)); [reflexivity|].
  destruct (checkEnabled wc && hasFileChecker wc && negb (String.eqb (targetFileName wc) "")).
  - destruct (CheckSpecificFile _ _ _ _) as [[[found ct] err] reqs].
    destruct err; [|destruct found]; cbn -[processDirectoryContent];
      try reflexivity; apply processDirectoryContent_query; assumption.
  - cbn -[processDirectoryContent]. apply processDirectoryContent_query; assumption.
Qed.

Example recursive_depth1_scans_flat :
  calls (processHost (toy_env (fun u => if String.eqb u "http://a.test/"
                                         then mkFetch true "index of f.pdf sub/" false
                                         else mkFetch true "index of g.pdf" false)
                                binary_http)
           (mkWorkerConfig base_config (mkQuery "yes" 1) ∅ false false "")
           "http://a.test/" (fresh_worker true)) =
  [Worker.CallFetch "http://a.test/"; CallScanHost "http://a.test/"].
Proof. vm_compute. reflexivity. Qed.

(** C8: with [recursive = "yes"] and [maxDepth = 1] the host pipeline
    ends in exactly the same worker state (outputs, statistics,
    suppression state, calls made, in particular no subdirectory fetch) as
    with [recursive = "no"], for every [maxDepth] of the latter. *)
Theorem recursive_depth1_same_as_flat :
  forall (E : Env) (wc : WorkerConfig) (d : Z) (hostURL htmlContent : string) (w : Worker),
    processHost E (with_query wc (mkQuery "yes" 1)) hostURL w =
    processHost E (with_query wc (mkQuery "no" d)) hostURL w /\
    processDirectoryContent E (with_query wc (mkQuery "yes" 1)) hostURL htmlContent w =
    processDirectoryContent E (with_query wc (mkQuery "no" d)) hostURL htmlContent w.
Proof.
  intros E wc d hostURL htmlContent w.
  split; [apply processHost_query | apply processDirectoryContent_query];
    reflexivity.
Qed.

(** An empty body is not a directory listing, so the directory stage
    leaves the worker as it is. *)
Lemma processDirectoryContent_empty (E : Env) (wc : WorkerConfig) (hostURL : string)
    (w : Worker) :
  ToLower E "" = "" -> parseAnchors E "" = Some [] ->
  processDirectoryContent E wc hostURL "" w = w.
Proof.
  intros Hl Ha. unfold processDirectoryContent.
  destruct (Blocklist.IsBlocked _ _); [reflexivity|].
  destruct (bool_decide _); [reflexivity|].
  unfold IsDirectoryListing. rewrite Hl, Ha. reflexivity.
Qed.

(** C6 (refuted): an online host with an empty body still gets the
    targeted probe; here it finds the target file and reports it. *)
Example empty_body_still_probed :
  let w := processHost (toy_env (fun _ => mkFetch true "" false) binary_http)
             targeted_config "http://c.test" (fresh_worker true) in
  calls w = [Worker.CallFetch "http://c.test";
             CallCheckSpecificFile "http://c.test" "payload.exe"] /\
  raw (sink w) = ["http://c.test";
                  "Found binary file: http://c.test/payload.exe with Content-Type: application/x-msdownload"].
Proof. vm_compute. split; reflexivity. Qed.

(** What [write_raw] and [write_binary] change in a worker. *)
Section WriteFields.
Variable E : Env.
Variable l : string.
Variable w : Worker.

Lemma write_raw_calls : calls (write_raw E l w) = calls w.
Proof. unfold write_raw. destruct (rawWriteFails _ _ _); reflexivity. Qed.
Lemma write_raw_sup : sup (write_raw E l w) = sup w.
Proof. unfold write_raw. destruct (rawWriteFails _ _ _); reflexivity. Qed.
Lemma write_raw_linksCount : linksCount (write_raw E l w) = linksCount w.
Proof. unfold write_raw. destruct (rawWriteFails _ _ _); reflexivity. Qed.
Lemma write_raw_sched : sched (write_raw E l w) = sched w.
Proof. unfold write_raw. destruct (rawWriteFails _ _ _); reflexivity. Qed.
Lemma write_raw_sink :
  sink (write_raw E l w) = mkSink (app (raw (sink w)) [l]) (filtered (sink w)) (binaryFindings (sink w)).
Proof. unfold write_raw. destruct (rawWriteFails _ _ _); reflexivity. Qed.
Lemma write_raw_stats :
  stats (write_raw E l w) =
  if rawWriteFails E (raw (sink w)) l then inc_writeErrors (stats w) else stats w.
Proof. unfold write_raw. destruct (rawWriteFails _ _ _); reflexivity. Qed.

Lemma write_binary_calls : calls (write_binary E l w) = calls w.
Proof. unfold write_binary. destruct (WriteBinaryOutput _ _ _) as [[e|] bf]; reflexivity. Qed.
Lemma write_binary_sup : sup (write_binary E l w) = sup w.
Proof. unfold write_binary. destruct (WriteBinaryOutput _ _ _) as [[e|] bf]; reflexivity. Qed.
Lemma write_binary_linksCount : linksCount (write_binary E l w) = linksCount w.
Proof. unfold write_binary. destruct (WriteBinaryOutput _ _ _) as [[e|] bf]; reflexivity. Qed.
Lemma write_binary_sched : sched (write_binary E l w) = sched w.
Proof. unfold write_binary. destruct (WriteBinaryOutput _ _ _) as [[e|] bf]; reflexivity. Qed.
Lemma write_binary_sink :
  sink (write_binary E l w) =
  mkSink (raw (sink w)) (filtered (sink w))
    (WriteBinaryOutput (url_parse E) l (binaryFindings (sink w))).2.
Proof. unfold write_binary. destruct (WriteBinaryOutput _ _ _) as [[e|] bf]; reflexivity. Qed.
Lemma write_binary_stats :
  stats (write_binary E l w) =
  if (WriteBinaryOutput (url_parse E) l (binaryFindings (sink w))).1
  then inc_writeErrors (stats w) else stats w.
Proof. unfold write_binary. destruct (WriteBinaryOutput _ _ _) as [[e|] bf]; reflexivity. Qed.

End WriteFields.

(** C6 (amended): for a host that is not suppressed and whose fetch
    returns online with an empty body, [processHost] increments
    [onlineHosts] and hands the host URL to the raw output first; it never
    invokes the directory walker, and its only further collaborator call
    is the targeted probe [CheckSpecificFile], made exactly in targeted
    mode.  When the probe returns found without an error, the host's
    binary URL is reported: a raw line, a binary finding, and one more
    [checkedFiles] and [binaryFilesFound]; otherwise nothing else is
    written or counted.  [writeErrors] counts the writes that failed. *)
Theorem processHost_empty_body (E : Env) (wc : WorkerConfig) (hostURL : string) (w : Worker) :
  Blocklist.IsBlocked (extractBaseHost E hostURL) (blocklist (sup w)) = false ->
  extractBaseHost E hostURL ∉ blockedHosts (sup w) ->
  hostURL ∉ skippedHosts (sup w) ->
  fetch E hostURL = mkFetch true "" false ->
  ToLower E "" = "" -> parseAnchors E "" = Some [] ->
  let targeted :=
    checkEnabled wc && hasFileChecker wc && negb (String.eqb (targetFileName wc) "") in
  let r := CheckSpecificFile (http E) (checkEnabled wc) hostURL (targetFileName wc) in
  let hit := targeted && (if r.1.2 then false else r.1.1.1) in
  let binaryURL := hostURL ++ "/" ++ targetFileName wc in
  let line := "Found binary file: " ++ binaryURL ++ " with Content-Type: " ++ r.1.1.2 in
  let bw := WriteBinaryOutput (url_parse E) (binaryURL ++ binary_sep ++ r.1.1.2)
              (binaryFindings (sink w)) in
  let w' := processHost E wc hostURL w in
  calls w' = app (calls w) (Worker.CallFetch hostURL ::
                            if targeted then [CallCheckSpecificFile hostURL (targetFileName wc)]
                            else []) /\
  raw (sink w') = app (raw (sink w)) (hostURL :: if hit then [line] else []) /\
  filtered (sink w') = filtered (sink w) /\
  binaryFindings (sink w') = (if hit then bw.2 else binaryFindings (sink w)) /\
  stats w' =
    mkStats (S (onlineHosts (stats w))) (totalFiles (stats w)) (filteredFiles (stats w))
      (Nat.b2n hit + checkedFiles (stats w)) (Nat.b2n hit + binaryFilesFound (stats w))
      (Nat.b2n (rawWriteFails E (raw (sink w)) hostURL) +
       (if hit then Nat.b2n (rawWriteFails E (app (raw (sink w)) [hostURL]) line) +
                    (if bw.1 then 1 else 0)
        else 0) + writeErrors (stats w)) /\
  sup w' = sup w /\ linksCount w' = linksCount w /\ sched w' = sched w.
Proof.
  intros Hb Hbs Hs Hf Hl Ha targeted r hit binaryURL line bw w'.
  subst targeted r hit binaryURL line bw w'.
  unfold processHost. rewrite Hb.
  rewrite (bool_decide_eq_false_2 _ Hbs), (bool_decide_eq_false_2 _ Hs), Hf.
  cbn [f_err f_online f_body negb].
  destruct (checkEnabled wc && hasFileChecker wc && negb (String.eqb (targetFileName wc) ""))
    eqn:Ht.
  - destruct (CheckSpecificFile (http E) (checkEnabled wc) hostURL (targetFileName wc))
      as [[[found ct] err] reqs].
    cbn [fst snd andb negb orb].
    destruct err as [e|]; [|destruct found]; cbn -[processDirectoryContent write_binary write_raw];
      try rewrite processDirectoryContent_empty by assumption.
    all: repeat first
      [ rewrite write_binary_calls | rewrite write_binary_sup | rewrite write_binary_linksCount
      | rewrite write_binary_sched | rewrite write_binary_sink | rewrite write_binary_stats
      | rewrite write_raw_calls | rewrite write_raw_sup | rewrite write_raw_linksCount
      | rewrite write_raw_sched | rewrite write_raw_sink | rewrite write_raw_stats
      | progress cbn [add_call set_stats set_sink calls sup linksCount sched sink stats
                      raw filtered binaryFindings] ].
    all: rewrite <- ?app_assoc; cbn [app].
    all: repeat match goal with
                | |- context [if ?b then _ else _] => destruct b
                end.
    all: unfold inc_online, inc_checked, inc_binary, inc_writeErrors; cbn [Nat.b2n stats];
      repeat split; f_equal; lia.
  - cbn -[processDirectoryContent write_raw]. rewrite processDirectoryContent_empty by assumption.
    repeat first
      [ rewrite write_raw_calls | rewrite write_raw_sup | rewrite write_raw_linksCount
      | rewrite write_raw_sched | rewrite write_raw_sink | rewrite write_raw_stats
      | progress cbn [add_call set_stats set_sink calls sup linksCount sched sink stats
                      raw filtered binaryFindings] ].
    rewrite <- ?app_assoc; cbn [app].
    destruct (rawWriteFails E (raw (sink w)) hostURL);
      unfold inc_online, inc_writeErrors; cbn [Nat.b2n];
      repeat split; f_equal; lia.
Qed.

Lemma processHost_empty_body_witness :
  let E := toy_env (fun _ => mkFetch true "" false) binary_http in
  let w := fresh_worker true in
  let w' := processHost E targeted_config "http://c.test" w in
  raw (sink w') = ["http://c.test";
                   "Found binary file: http://c.test/payload.exe with Content-Type: application/x-msdownload"] /\
  checkedFiles (stats w') = 1%nat /\ binaryFilesFound (stats w') = 1%nat /\
  binaryFindings (sink w') <> ∅.
Proof.
  cbv zeta.
  destruct (processHost_empty_body (toy_env (fun _ => mkFetch true "" false) binary_http)
              targeted_config "http://c.test" (fresh_worker true))
    as [_ [H2 [_ [H4 [H5 _]]]]];
    [vm_compute; reflexivity | vm_compute; intros H; inversion H
    | vm_compute; intros H; inversion H | reflexivity | reflexivity | reflexivity |].
  rewrite H2, H4, H5. vm_compute.
  split; [reflexivity|]. split; [reflexivity|]. split; [reflexivity|].
  intros H. inversion H.
Defined.

End WorkerFacts.

(** ** Skip events and blocking *)

Module SkipFacts.
Import GoStr GoURL Env Config Scanner Worker Fixtures.

Lemma skip_count_snoc (E : Env) (h : string) (l : list (string * string)) (e : string * string) :
  skip_count E h (app l [e]) =
  (skip_count E h l + if String.eqb (extractBaseHost E e.2) h then 1 else 0)%nat.
Proof.
  unfold skip_count. rewrite List.filter_app, length_app. cbn.
  destruct (String.eqb _ _); cbn; lia.
Qed.

Lemma run_skips_snoc (E : Env) (wc : WorkerConfig) (l : list (string * string))
    (e : string * string) (w : Worker) :
  run_skips E wc (app l [e]) w = skipCallback E wc e.1 (run_skips E wc l w) e.2.
Proof. unfold run_skips. rewrite fold_left_app. reflexivity. Qed.

Lemma prefix_snoc_iff {A} (p l : list A) (x e : A) :
  app p [x] `prefix_of` app l [e] <-> app p [x] `prefix_of` l \/ app p [x] = app l [e].
Proof.
  split.
  - intros [k Hk]. induction k as [|y k _] using rev_ind.
    + right. rewrite app_nil_r in Hk. symmetry. exact Hk.
    + left. rewrite app_assoc in Hk. apply app_inj_tail in Hk as [Hk _].
      exists k. exact Hk.
  - intros [[k Hk] | H].
    + exists (app k [e]). rewrite Hk, app_assoc. reflexivity.
    + rewrite H. exists []. rewrite app_nil_r. reflexivity.
Qed.

Lemma AddHost_enabled (now : GoTime.Time) (x : string) (b : Blocklist.Blocklist) :
  Blocklist.enabled (Blocklist.AddHost now x b) = Blocklist.enabled b.
Proof.
  unfold Blocklist.AddHost. destruct (Blocklist.enabled b) eqn:He; cbn; [|exact He].
  destruct (Blocklist.hosts b !! x); [exact He | reflexivity].
Qed.

Lemma AddHost_disabled (now : GoTime.Time) (x : string) (b : Blocklist.Blocklist) :
  Blocklist.enabled b = false -> Blocklist.AddHost now x b = b.
Proof. intros H. unfold Blocklist.AddHost. rewrite H. reflexivity. Qed.

Lemma AddHost_hosts (now : GoTime.Time) (x h : string) (b : Blocklist.Blocklist) :
  Blocklist.enabled b = true ->
  is_Some (Blocklist.hosts (Blocklist.AddHost now x b) !! h) <->
  x = h \/ is_Some (Blocklist.hosts b !! h).
Proof.
  intros He. unfold Blocklist.AddHost. rewrite He. cbn.
  destruct (Blocklist.hosts b !! x) eqn:Hx; cbn.
  - split; [intros; right; assumption|].
    intros [<- | H]; [rewrite Hx; eexists; reflexivity | exact H].
  - destruct (String.eqb_spec x h) as [<- | Hne].
    + rewrite lookup_insert_eq. split; [intros; left; reflexivity | eexists; reflexivity].
    + rewrite lookup_insert_ne by exact Hne. split; [intros; right; assumption|].
      intros [? | H]; [contradiction | exact H].
Qed.

Section Skips.
Variable E : Env.
Variable wc : WorkerConfig.
Hypothesis HK : (0 < MaxSkipsBeforeBlock (config wc))%Z.

(** The suppression state after a sequence of skip events, described by
    the events alone. *)
Lemma run_skips_inv (w0 : Worker) (evs : list (string * string)) :
  skipCounters (sup w0) = ∅ -> blockedHosts (sup w0) = ∅ -> skippedHosts (sup w0) = ∅ ->
  let K := MaxSkipsBeforeBlock (config wc) in
  let w := run_skips E wc evs w0 in
  (forall h, default 0%Z (skipCounters (sup w) !! h) = Z.of_nat (skip_count E h evs)) /\
  (forall h, h ∈ blockedHosts (sup w) <-> (K <= Z.of_nat (skip_count E h evs))%Z) /\
  (forall o, o ∈ skippedHosts (sup w) <->
     exists pre u, app pre [(o, u)] `prefix_of` evs /\
       (K <= Z.of_nat (skip_count E (extractBaseHost E u) (app pre [(o, u)])))%Z) /\
  Blocklist.enabled (blocklist (sup w)) = Blocklist.enabled (blocklist (sup w0)) /\
  (Blocklist.enabled (blocklist (sup w0)) = false -> blocklist (sup w) = blocklist (sup w0)) /\
  (Blocklist.enabled (blocklist (sup w0)) = true -> forall h,
     (K <= Z.of_nat (skip_count E h evs))%Z -> is_Some (Blocklist.hosts (blocklist (sup w)) !! h)).
Proof.
  intros Hc0 Hb0 Hs0 K. induction evs as [|[o u] evs IH] using rev_ind; intros w.
  - subst w. cbn. rewrite Hc0, Hb0, Hs0.
    split; [intros h; rewrite lookup_empty; reflexivity|].
    split; [intros h; split; [set_solver | cbn; subst K; lia]|].
    split; [intros o; split; [set_solver|]; intros (pre & u & [k Hk] & _);
            destruct pre; discriminate Hk|].
    split; [reflexivity|]. split; [reflexivity|].
    intros _ h Hh. cbn in Hh. subst K. lia.
  - cbv zeta in IH. destruct IH as (Ha & Hb & Hs & Hen & Hdis & Hon).
    subst w. rewrite run_skips_snoc. cbn [fst snd].
    set (w := run_skips E wc evs w0) in *.
    unfold skipCallback. rewrite Ha.
    set (bh := extractBaseHost E u).
    set (c := skip_count E bh evs).
    destruct ((0 <? MaxSkipsBeforeBlock (config wc))%Z &&
              (MaxSkipsBeforeBlock (config wc) <=? Z.of_nat c + 1)%Z) eqn:Hc;
      cbn [set_sup sup skipCounters blockedHosts skippedHosts blocklist];
      [apply andb_true_iff in Hc as [_ Hc]; apply Z.leb_le in Hc
      |apply andb_false_iff in Hc as [Hc | Hc];
         [apply Z.ltb_ge in Hc; lia | apply Z.leb_gt in Hc]].
    + split; [|split; [|split; [|split; [|split]]]].
      * intros h. rewrite skip_count_snoc. cbn [snd]. fold bh.
        destruct (String.eqb_spec bh h) as [<- | Hne].
        -- rewrite lookup_insert_eq. cbn. subst c. lia.
        -- rewrite lookup_insert_ne by exact Hne. rewrite Ha. lia.
      * intros h. rewrite elem_of_union, elem_of_singleton, Hb, skip_count_snoc.
        cbn [snd]. fold bh. subst K.
        destruct (String.eqb_spec bh h) as [<- | Hne]; [split; [intros; fold c; lia | auto]|].
        split; [intros [? | ?]; [congruence | lia] | intros; right; lia].
      * intros o'. rewrite elem_of_union, elem_of_singleton, Hs. split.
        -- intros [-> | (pre & u' & Hp & Hk)].
           ++ exists evs, u. split; [exists []; rewrite app_nil_r; reflexivity|].
              rewrite skip_count_snoc. cbn [snd]. fold bh.
              rewrite String.eqb_refl. subst K c. lia.
           ++ exists pre, u'. split; [|exact Hk].
              destruct Hp as [k Hp]. exists (app k [(o, u)]). rewrite Hp, app_assoc. reflexivity.
        -- intros (pre & u' & Hp & Hk). apply prefix_snoc_iff in Hp as [Hp | Hp].
           ++ right. exists pre, u'. auto.
           ++ left. apply app_inj_tail in Hp as [_ Hp]. congruence.
      * rewrite AddHost_enabled. exact Hen.
      * intros Hd. rewrite AddHost_disabled; [auto | rewrite Hen; exact Hd].
      * intros He h Hh. apply AddHost_hosts; [rewrite Hen; exact He|].
        rewrite skip_count_snoc in Hh. cbn [snd] in Hh. fold bh in Hh.
        destruct (String.eqb_spec bh h) as [Heq | Hne]; [left; exact Heq|].
        right. apply Hon; [exact He | lia].
    + split; [|split; [|split; [|split; [|split]]]].
      * intros h. rewrite skip_count_snoc. cbn [snd]. fold bh.
        destruct (String.eqb_spec bh h) as [<- | Hne].
        -- rewrite lookup_insert_eq. cbn. subst c. lia.
        -- rewrite lookup_insert_ne by exact Hne. rewrite Ha. lia.
      * intros h. rewrite Hb, skip_count_snoc. cbn [snd]. fold bh. subst K.
        destruct (String.eqb_spec bh h) as [<- | Hne]; [fold c; lia | lia].
      * intros o'. rewrite Hs. split.
        -- intros (pre & u' & Hp & Hk). exists pre, u'. split; [|exact Hk].
           destruct Hp as [k Hp]. exists (app k [(o, u)]). rewrite Hp, app_assoc. reflexivity.
        -- intros (pre & u' & Hp & Hk). apply prefix_snoc_iff in Hp as [Hp | Hp].
           ++ exists pre, u'. auto.
           ++ exfalso. rewrite Hp in Hk. rewrite skip_count_snoc in Hk.
              apply app_inj_tail in Hp as [_ Hp]. injection Hp as -> ->.
              cbn [snd] in Hk. fold bh in Hk. rewrite String.eqb_refl in Hk.
              subst K c. lia.
      * exact Hen.
      * exact Hdis.
      * intros He h Hh. rewrite skip_count_snoc in Hh. cbn [snd] in Hh. fold bh in Hh.
        destruct (String.eqb_spec bh h) as [Heq | Hne]; [rewrite <- Heq in Hh; subst K c; lia|].
        apply Hon; [exact He | lia].
Qed.

End Skips.

(** C4 (refuted): with the blocklist disabled ([enableBlocklist = false])
    and [maxSkipsBeforeBlock = 1], one skip puts the base hostname in the
    in-run blocked set, but [AddHost] leaves the persistent blocklist
    empty. *)
Example blocked_not_persisted :
  let wc := mkWorkerConfig (mkConfig 0 0 1 false) (mkQuery "yes" 3) ∅ false false "" in
  let w := run_skips (toy_env no_fetch binary_http) wc
             [("http://a.test/", "http://a.test/big/")] (fresh_worker false) in
  "a.test" ∈ blockedHosts (sup w) /\ "http://a.test/" ∈ skippedHosts (sup w) /\
  Blocklist.hosts (blocklist (sup w)) !! "a.test" = None.
Proof.
  cbv zeta. split; [|split].
  - apply (bool_decide_eq_true _). vm_compute. reflexivity.
  - apply (bool_decide_eq_true _). vm_compute. reflexivity.
  - vm_compute. reflexivity.
Qed.

(** C4 (amended): with [maxSkipsBeforeBlock = K > 0], after any sequence
    of skip events handled by [skipCallback] from a state with no skip
    counters, blocked or skipped hosts, a base hostname is in the in-run
    blocked set iff at least [K] skip events were recorded for it; an
    origin host URL is in [skippedHosts] iff one of its skip events took
    its base hostname's count to [K] or more; such a base hostname is in
    the persistent blocklist when the blocklist is enabled, while a
    disabled blocklist is never changed. *)
Theorem skip_blocking (E : Env) (wc : WorkerConfig) (evs : list (string * string)) (w0 : Worker) :
  (0 < MaxSkipsBeforeBlock (config wc))%Z ->
  skipCounters (sup w0) = ∅ -> blockedHosts (sup w0) = ∅ -> skippedHosts (sup w0) = ∅ ->
  let K := MaxSkipsBeforeBlock (config wc) in
  let w := run_skips E wc evs w0 in
  (forall h, h ∈ blockedHosts (sup w) <-> (K <= Z.of_nat (skip_count E h evs))%Z) /\
  (forall o, o ∈ skippedHosts (sup w) <->
     exists pre u, app pre [(o, u)] `prefix_of` evs /\
       (K <= Z.of_nat (skip_count E (extractBaseHost E u) (app pre [(o, u)])))%Z) /\
  (Blocklist.enabled (blocklist (sup w0)) = true -> forall h,
     (K <= Z.of_nat (skip_count E h evs))%Z -> is_Some (Blocklist.hosts (blocklist (sup w)) !! h)) /\
  (Blocklist.enabled (blocklist (sup w0)) = false -> blocklist (sup w) = blocklist (sup w0)).
Proof.
  intros HK Hc Hb Hs K w.
  destruct (run_skips_inv E wc HK w0 evs Hc Hb Hs) as (_ & H1 & H2 & _ & H4 & H5).
  auto.
Qed.

Lemma skip_blocking_witness :
  let E := toy_env no_fetch binary_http in
  let wc := mkWorkerConfig (mkConfig 0 0 2 true) (mkQuery "yes" 3) ∅ false false "" in
  let evs := [("http://a.test/", "http://a.test/x/"); ("http://a.test:8080/", "http://a.test:8080/y/")] in
  "a.test" ∈ blockedHosts (sup (run_skips E wc evs (fresh_worker true))).
Proof.
  cbv zeta.
  destruct (skip_blocking (toy_env no_fetch binary_http)
              (mkWorkerConfig (mkConfig 0 0 2 true) (mkQuery "yes" 3) ∅ false false "")
              [("http://a.test/", "http://a.test/x/"); ("http://a.test:8080/", "http://a.test:8080/y/")]
              (fresh_worker true) ltac:(reflexivity) eq_refl eq_refl eq_refl)
    as [H _].
  apply H. vm_compute. discriminate.
Defined.

End SkipFacts.

(** ** Directory listing detection *)

Module ListingFacts.
Import GoStr Env Scanner Fixtures.

Lemma is_nav_existsb (href : string) :
  is_nav href = existsb (String.eqb href) ["../"; ".."; "."; "/"].
Proof.
  unfold is_nav. cbn.
  destruct (String.eqb href "../"), (String.eqb href ".."), (String.eqb href "."),
    (String.eqb href "/"); reflexivity.
Qed.

(** C5: [IsDirectoryListing] returns true iff the lowercased body
    contains one of the six indicators, or more than 5 anchors of the
    parsed body carry an href other than ["../"], [".."], ["."] and ["/"].
    The parser only runs on a body without an indicator, and a body it
    rejects there gives false: an unparseable body is a listing exactly
    when an indicator, checked before parsing, says so. *)
Theorem IsDirectoryListing_spec (E : Env) (htmlContent : string) :
  (IsDirectoryListing E htmlContent = true <->
   (exists ind, In ind ["index of"; "directory listing"; "parent directory";
                        "<title>index of"; "apache/"; "nginx/"] /\
                Contains (ToLower E htmlContent) ind = true) \/
   (exists anchors, parseAnchors E htmlContent = Some anchors /\
      5 < length (List.filter (fun a => match a with
                                        | Some href => negb (existsb (String.eqb href)
                                                               ["../"; ".."; "."; "/"])
                                        | None => false
                                        end) anchors))) /\
  (parseAnchors E htmlContent = None ->
   (IsDirectoryListing E htmlContent = true <->
    exists ind, In ind ["index of"; "directory listing"; "parent directory";
                        "<title>index of"; "apache/"; "nginx/"] /\
                Contains (ToLower E htmlContent) ind = true)).
Proof.
  assert (Hf : forall anchors : list (option string),
    List.filter (fun a => match a with
                          | Some href => negb (is_nav href) | None => false end) anchors =
    List.filter (fun a => match a with
                          | Some href => negb (existsb (String.eqb href) ["../"; ".."; "."; "/"])
                          | None => false end) anchors).
  { intros anchors. apply List.filter_ext. intros [href|]; [|reflexivity].
    rewrite is_nav_existsb. reflexivity. }
  unfold IsDirectoryListing. fold directoryIndicators.
  destruct (existsb (Contains (ToLower E htmlContent)) directoryIndicators) eqn:Hi.
  - apply existsb_exists in Hi. split; [split; [intros _; left; exact Hi | reflexivity]|].
    intros _. split; [intros _; exact Hi | reflexivity].
  - assert (Hn : ~ exists ind, In ind directoryIndicators /\
                               Contains (ToLower E htmlContent) ind = true).
    { intros Hex. apply existsb_exists in Hex. congruence. }
    split.
    + destruct (parseAnchors E htmlContent) as [anchors|] eqn:Hp.
      * rewrite Hf. split.
        -- intros H. right. exists anchors. split; [reflexivity|]. apply Nat.ltb_lt. exact H.
        -- intros [H | (a & Ha & H)]; [contradiction|]. injection Ha as <-.
           apply Nat.ltb_lt. exact H.
      * split; [discriminate|]. intros [H | (a & Ha & _)]; [contradiction | discriminate].
    + intros Hp. rewrite Hp. split; [discriminate | intros H; contradiction].
Qed.

End ListingFacts.

(** ** The binary findings file *)

Module BinaryFacts.
Import GoStr GoURL Output.

Lemma flat_map_flat_map' {A B C} (f : B -> list C) (g : A -> list B) (l : list A) :
  flat_map f (flat_map g l) = flat_map (fun x => flat_map f (g x)) l.
Proof. induction l as [|a l IH]; cbn; [reflexivity|]. rewrite flat_map_app, IH. reflexivity. Qed.

Lemma map_fst_fmap {A B} (l : list (A * B)) : map fst l = l.*1.
Proof. induction l as [|x l IH]; cbn; [reflexivity|]. rewrite IH. reflexivity. Qed.

(** Keeping or dropping each element keeps a list sorted. *)
Lemma StronglySorted_flat_map_sub {A} (R : A -> A -> Prop) (k : A -> list A) (l : list A) :
  (forall x, k x = [] \/ k x = [x]) ->
  StronglySorted R l -> StronglySorted R (flat_map k l).
Proof.
  intros Hk Hs. induction Hs as [|a l Hs IH Hfa]; cbn; [constructor|].
  destruct (Hk a) as [-> | ->]; cbn; [exact IH|].
  constructor; [exact IH|]. apply List.Forall_forall. intros y Hy.
  apply in_flat_map in Hy as (x & Hx & Hy).
  destruct (Hk x) as [E | E]; rewrite E in Hy; [destruct Hy|].
  destruct Hy as [<- | []]. rewrite List.Forall_forall in Hfa. apply Hfa. exact Hx.
Qed.

(** [sort.Strings] order on distinct keys is strict. *)
Lemma StronglySorted_le_lt (l : list string) :
  StronglySorted String.le l -> NoDup l ->
  StronglySorted (fun a b => String.compare a b = Lt) l.
Proof.
  intros Hs. induction Hs as [|a l Hs IH Hfa]; intros Hnd; [constructor|].
  inversion Hnd as [|? ? Hnin Hnd']; subst.
  constructor; [apply IH; exact Hnd'|].
  rewrite List.Forall_forall in Hfa |- *. intros b Hb.
  specialize (Hfa b Hb). unfold String.le, String.leb in Hfa.
  destruct (String.compare a b) eqn:Hc; [|reflexivity|cbn in Hfa; contradiction].
  apply String.compare_eq_iff in Hc. subst b. apply list_elem_of_In in Hb. contradiction.
Qed.

Lemma NoDup_flat_map_disjoint {A B} (G : A -> list B) (l : list A) :
  NoDup l -> (forall x, In x l -> NoDup (G x)) ->
  (forall x y b, In b (G x) -> In b (G y) -> x = y) ->
  NoDup (flat_map G l).
Proof.
  intros Hl HG Hdis. induction Hl as [|a l Hnin Hl IH]; cbn; [constructor|].
  apply NoDup_app. split; [apply HG; left; reflexivity|]. split.
  - intros x Hx Hx'. apply list_elem_of_In in Hx, Hx'.
    apply in_flat_map in Hx' as (y & Hy & Hx').
    assert (a = y) as <- by (apply (Hdis a y x); assumption). apply Hnin, list_elem_of_In. exact Hy.
  - apply IH. intros x Hx. apply HG. right. exact Hx.
Qed.

Lemma flat_map_headers_urls (l : list BinaryFinding) :
  flat_map (fun c => match c with Separator h _ => [h] | UrlLine _ => [] end)
    (map (fun f => UrlLine (URL f)) l) = [] /\
  flat_map (fun c => match c with UrlLine u => [u] | Separator _ _ => [] end)
    (map (fun f => UrlLine (URL f)) l) = map URL l.
Proof.
  induction l as [|f l [IH1 IH2]]; cbn; [split; reflexivity|].
  rewrite IH1, IH2. split; reflexivity.
Qed.

Section WithParse.
Variable url_parse : string -> option GoURL.URL.

(** Each group holds distinct URLs, all of which have the group's key. *)
Definition groups_ok (m : gmap string (list BinaryFinding)) : Prop :=
  forall k fs, m !! k = Some fs ->
    NoDup (map URL fs) /\ Forall (fun f => group_key url_parse (URL f) = Some k) fs.

Lemma WriteBinaryOutput_groups_ok (line : string) (m : gmap string (list BinaryFinding)) :
  groups_ok m -> groups_ok (snd (WriteBinaryOutput url_parse line m)).
Proof.
  intros Hm. unfold WriteBinaryOutput.
  destruct (Split line binary_sep) as [|p0 [|p1 [|p2 rest]]]; cbn [snd]; try exact Hm.
  destruct (url_parse (TrimSpace p0)) as [u|] eqn:Hu; cbn [snd]; [|exact Hm].
  destruct (existsb _ _) eqn:He; cbn [snd]; [exact Hm|].
  intros k fs Hk.
  destruct (String.eqb_spec (Scheme u ++ "://" ++ Host u) k) as [Hkey | Hne].
  - subst k. rewrite lookup_insert_eq in Hk. injection Hk as <-.
    assert (Hex : NoDup (map URL (default [] (m !! (Scheme u ++ "://" ++ Host u)))) /\
                  Forall (fun f => group_key url_parse (URL f) = Some (Scheme u ++ "://" ++ Host u))
                    (default [] (m !! (Scheme u ++ "://" ++ Host u)))).
    { destruct (m !! _) eqn:Hl; cbn; [apply Hm; exact Hl | split; constructor]. }
    destruct Hex as [Hnd Hfa]. split.
    + rewrite map_app. apply NoDup_app. split; [exact Hnd|]. split; [|apply NoDup_singleton].
      intros x Hx Hx'. cbn in Hx'. apply list_elem_of_singleton in Hx'. subst x.
      apply list_elem_of_In, in_map_iff in Hx as (f & Hf & Hin).
      assert (existsb (fun f => String.eqb (URL f) (TrimSpace p0))
                (default [] (m !! (Scheme u ++ "://" ++ Host u))) = true) as Ht.
      { apply existsb_exists. exists f. split; [exact Hin | apply String.eqb_eq; exact Hf]. }
      congruence.
    + apply Forall_app. split; [exact Hfa|]. constructor; [|constructor].
      cbn. unfold group_key. rewrite Hu. reflexivity.
  - rewrite lookup_insert_ne in Hk by exact Hne. apply Hm. exact Hk.
Qed.

Lemma write_lines_groups_ok (lines : list string) (m : gmap string (list BinaryFinding)) :
  groups_ok m -> groups_ok (write_lines url_parse lines m).
Proof.
  revert m. induction lines as [|line lines IH]; intros m Hm; [exact Hm|].
  cbn. apply IH. apply WriteBinaryOutput_groups_ok. exact Hm.
Qed.

Lemma groups_ok_empty : groups_ok ∅.
Proof. intros k fs Hk. rewrite lookup_empty in Hk. discriminate. Qed.

(** The file written from well-formed groups. *)
Lemma writeSorted_groups_ok (m : gmap string (list BinaryFinding)) :
  groups_ok m ->
  let cs := writeSortedBinaryFindings m in
  StronglySorted (fun a b => String.compare a b = Lt) (chunk_headers cs) /\
  NoDup (chunk_urls cs) /\
  (forall url, In url (chunk_urls cs) ->
     exists u, url_parse url = Some u /\ In (Scheme u ++ "://" ++ Host u) (chunk_headers cs)).
Proof.
  intros Hm cs. subst cs. unfold writeSortedBinaryFindings.
  destruct (Nat.eqb (size m) 0).
  { cbn. split; [constructor|]. split; [constructor|]. intros url []. }
  set (hosts := merge_sort String.le (map fst (map_to_list m))).
  set (G := fun host => default [] (m !! host)).
  assert (Hnd : NoDup hosts).
  { subst hosts. rewrite (merge_sort_Permutation String.le (map fst (map_to_list m))).
    rewrite map_fst_fmap. apply NoDup_fst_map_to_list. }
  assert (Hss : StronglySorted String.le hosts) by (apply StronglySorted_merge_sort; typeclasses eauto).
  assert (HG : forall h, NoDup (map URL (G h)) /\
                         Forall (fun f => group_key url_parse (URL f) = Some h) (G h)).
  { intros h. subst G. cbn. destruct (m !! h) eqn:Hl; cbn;
      [apply Hm; exact Hl | split; constructor]. }
  assert (Hhd : chunk_headers (flat_map (fun host =>
             match default [] (m !! host) with
             | [] => []
             | _ => Separator host (length (default [] (m !! host))) ::
                      map (fun f => UrlLine (URL f)) (default [] (m !! host))
             end) hosts) =
           flat_map (fun h => match G h with [] => [] | _ => [h] end) hosts).
  { unfold chunk_headers. rewrite flat_map_flat_map'. apply flat_map_ext. intros h.
    subst G. cbv beta. destruct (default [] (m !! h)) as [|f fs]; [reflexivity|].
    cbn. rewrite (proj1 (flat_map_headers_urls fs)). reflexivity. }
  assert (Hur : chunk_urls (flat_map (fun host =>
             match default [] (m !! host) with
             | [] => []
             | _ => Separator host (length (default [] (m !! host))) ::
                      map (fun f => UrlLine (URL f)) (default [] (m !! host))
             end) hosts) =
           flat_map (fun h => map URL (G h)) hosts).
  { unfold chunk_urls. rewrite flat_map_flat_map'. apply flat_map_ext. intros h.
    subst G. cbv beta. destruct (default [] (m !! h)) as [|f fs]; [reflexivity|].
    cbn. rewrite (proj2 (flat_map_headers_urls fs)). reflexivity. }
  rewrite Hhd, Hur. split; [|split].
  - apply StronglySorted_flat_map_sub.
    + intros x. destruct (G x); [left | right]; reflexivity.
    + apply StronglySorted_le_lt; assumption.
  - apply NoDup_flat_map_disjoint; [exact Hnd | intros x _; apply HG|].
    intros x y b Hx Hy.
    apply in_map_iff in Hx as (f & <- & Hf), Hy as (f' & Hf'e & Hf').
    pose proof (proj1 (List.Forall_forall _ _) (proj2 (HG x)) f Hf) as E1.
    pose proof (proj1 (List.Forall_forall _ _) (proj2 (HG y)) f' Hf') as E2.
    cbv beta in E1, E2. rewrite Hf'e in E2. congruence.
  - intros url Hin. apply in_flat_map in Hin as (h & Hh & Hin).
    apply in_map_iff in Hin as (f & <- & Hf).
    pose proof (proj1 (List.Forall_forall _ _) (proj2 (HG h)) f Hf) as E1.
    cbv beta in E1. unfold group_key in E1. destruct (url_parse (URL f)) as [u|]; [|discriminate].
    injection E1 as E1. exists u. split; [reflexivity|]. rewrite E1.
    apply in_flat_map. exists h. split; [exact Hh|].
    destruct (G h); [destruct Hf | left; reflexivity].
Qed.

End WithParse.

Example binary_file_example :
  binary_file (write_lines Fixtures.toy_url_parse
                 ["http://b.test/x.exe with Content-Type: application/x-msdownload";
                  "http://a.test/y.zip with Content-Type: application/zip";
                  "http://b.test/x.exe with Content-Type: application/x-msdownload";
                  "no separator here"] ∅) =
  "
=== http://a.test (1 files) ===
http://a.test/y.zip
" ++ "
=== http://b.test (1 files) ===
http://b.test/x.exe
".
Proof. vm_compute. reflexivity. Qed.

(** C3: whatever lines [writeBinary] receives, in whatever order, the
    file [Close] writes from them ([binary_file] renders these chunks) has
    its group headers in strictly ascending byte order of the
    [scheme://host] key, no URL line twice, and each URL line parses to
    the key of a header of the file. *)
Theorem binary_file_sorted_unique (url_parse : string -> option GoURL.URL) (lines : list string) :
  let cs := writeSortedBinaryFindings (write_lines url_parse lines ∅) in
  binary_file (write_lines url_parse lines ∅) = String.concat "" (map render_chunk cs) /\
  StronglySorted (fun a b => String.compare a b = Lt) (chunk_headers cs) /\
  NoDup (chunk_urls cs) /\
  (forall url, In url (chunk_urls cs) ->
     exists u, url_parse url = Some u /\ In (Scheme u ++ "://" ++ Host u) (chunk_headers cs)).
Proof.
  intros cs. split; [reflexivity|].
  apply writeSorted_groups_ok, write_lines_groups_ok, groups_ok_empty.
Qed.

End BinaryFacts.

(** ** The total-links budget of the recursive walk *)

Module WalkFacts.
Import GoStr Env Config Scanner Fixtures.

(** A host whose root lists three files and two subdirectories, holding
    one and two files. *)
Example walk_alone_respects_budget :
  let E := toy_env (fun u => if String.eqb u "http://h.test/d1/" then mkFetch true "apache/ g1.pdf" false
                             else if String.eqb u "http://h.test/d2/" then mkFetch true "apache/ g2.pdf g3.pdf" false
                             else mkFetch false "" false) binary_http in
  let wk := ScanHostRecursive E (mkConfig 0 3 0 true) "http://h.test/" "f1.pdf f2.pdf f3.pdf d1/ d2/" 2 0 [] in
  w_allLinks wk = ["http://h.test/f1.pdf"; "http://h.test/f2.pdf"; "http://h.test/f3.pdf";
                 "http://h.test/d1/g1.pdf"] /\
  w_skips wk = ["http://h.test/d2/"].
Proof. vm_compute. split; reflexivity. Qed.

(** C2 (code bug): the same walk while another worker starts its own
    [ScanHostRecursive] on the shared scanner just before the walk loads the
    counter at [d2/]: the reset of [totalLinksCount] lets the walk enter
    [d2/], and it returns 6 file URLs, more than [T + 1 = 4] ([T = 3], and
    [d1/] with 1 file first pushed the counter over [T]). *)
Theorem walk_budget_broken_by_reset :
  let E := toy_env (fun u => if String.eqb u "http://h.test/d1/" then mkFetch true "apache/ g1.pdf" false
                             else if String.eqb u "http://h.test/d2/" then mkFetch true "apache/ g2.pdf g3.pdf" false
                             else mkFetch false "" false) binary_http in
  let wk := ScanHostRecursive E (mkConfig 0 3 0 true) "http://h.test/" "f1.pdf f2.pdf f3.pdf d1/ d2/" 2 0
              [[]; []; []; []; [OtherStore0]; []] in
  w_adds wk = [("http://h.test/", 3%nat); ("http://h.test/d1/", 1%nat); ("http://h.test/d2/", 2%nat)] /\
  w_skips wk = [] /\
  length (w_allLinks wk) = 6%nat /\ (3 + 1 < length (w_allLinks wk))%nat.
Proof. vm_compute. repeat split; lia. Qed.

Section Alone.
Variable E : Env.
Variable cfg : Config.
Hypothesis HT : (0 < MaxTotalLinks cfg)%Z.

Lemma interfere_alone (w : Walk) : w_sched w = [] -> interfere w = w.
Proof. intros Hs. unfold interfere. rewrite Hs. reflexivity. Qed.

Lemma add_skip_inv (u : string) (w : Walk) : walk_inv cfg w -> walk_inv cfg (add_skip u w).
Proof. intros H. exact H. Qed.

Lemma add_fetch_inv (u : string) (w : Walk) : walk_inv cfg w -> walk_inv cfg (add_fetch u w).
Proof. intros H. exact H. Qed.

Lemma add_files_inv (u : string) (files : list string) (w : Walk) :
  walk_inv cfg w -> (w_count w <= MaxTotalLinks cfg)%Z ->
  walk_inv cfg (add_count u (length files) (interfere (append_links files (add_visited u w)))).
Proof.
  intros (Hs & Hc & Hl & Hok) Hle. rewrite interfere_alone by exact Hs.
  unfold walk_inv, add_count, append_links, add_visited; cbn.
  rewrite map_app, list_sum_app. cbn.
  split; [exact Hs|]. split; [rewrite Hc; lia|]. split; [rewrite length_app, Hl; lia|].
  intros pre x post Heq.
  destruct post as [|y post] using rev_ind.
  - apply app_inj_tail in Heq as [<- _]. lia.
  - rewrite app_comm_cons, app_assoc in Heq. apply app_inj_tail in Heq as [Heq _].
    exact (Hok pre x post Heq).
Qed.

Lemma fold_walk_inv {A} (f : Walk -> A -> Walk) (l : list A) (w : Walk) :
  (forall w x, walk_inv cfg w -> walk_inv cfg (f w x)) ->
  walk_inv cfg w -> walk_inv cfg (fold_left f l w).
Proof.
  intros Hf. revert w. induction l as [|x l IH]; intros w Hw; [exact Hw|].
  cbn. apply IH. apply Hf. exact Hw.
Qed.

Lemma scanRecursive_inv (fuel : nat) :
  forall baseURL htmlContent currentDepth maxDepth w,
    walk_inv cfg w ->
    walk_inv cfg (scanRecursive E fuel cfg baseURL htmlContent currentDepth maxDepth w).
Proof.
  induction fuel as [|f IH]; intros baseURL htmlContent currentDepth maxDepth w Hw;
    cbn [scanRecursive]; rewrite interfere_alone by apply Hw;
    (destruct ((0 <? MaxTotalLinks cfg)%Z && (MaxTotalLinks cfg <? w_count w)%Z) eqn:Hb;
      [apply add_skip_inv; exact Hw|]);
    (destruct (bool_decide (baseURL ∈ w_visited w) || (maxDepth <=? currentDepth)%Z);
      [exact Hw|]);
    (assert (Hle : (w_count w <= MaxTotalLinks cfg)%Z)
      by (apply andb_false_iff in Hb as [Hb | Hb];
          [apply Z.ltb_ge in Hb; lia | apply Z.ltb_ge in Hb; exact Hb]));
    match goal with
    | |- walk_inv cfg (if ?c then fold_left _ _ ?w0 else ?w0) =>
        assert (Hw0 : walk_inv cfg w0) by (apply add_files_inv; assumption);
        destruct c; [|exact Hw0]
    end;
    (apply fold_walk_inv; [|exact Hw0]); intros w1 d Hw1; cbv beta;
    (destruct (f_err _ || negb (f_online _)); [apply add_fetch_inv; exact Hw1|]);
    (destruct (IsDirectoryListing _ _); [|apply add_fetch_inv; exact Hw1]);
    [apply add_fetch_inv; exact Hw1 | apply IH, add_fetch_inv; exact Hw1].
Qed.

Lemma walk_inv_start (sched : list (list OtherOp)) :
  sched = [] -> walk_inv cfg (mkWalk 0 sched ∅ [] [] [] []).
Proof.
  intros ->. split; [reflexivity|]. split; [reflexivity|]. split; [reflexivity|].
  intros pre x post Heq. destruct pre; discriminate Heq.
Qed.

End Alone.

(** The sum bound the invariant gives. *)
Lemma walk_inv_bound (cfg : Config) (w : Walk) :
  (0 <= MaxTotalLinks cfg)%Z -> walk_inv cfg w ->
  (Z.of_nat (length (w_allLinks w)) <= MaxTotalLinks cfg)%Z \/
  exists pre u n, w_adds w = app pre [(u, n)] /\
    (Z.of_nat (list_sum (map snd pre)) <= MaxTotalLinks cfg <
     Z.of_nat (list_sum (map snd pre)) + Z.of_nat n)%Z /\
    length (w_allLinks w) = (list_sum (map snd pre) + n)%nat.
Proof.
  intros HT (_ & _ & Hl & Hok).
  destruct (Z.le_gt_cases (Z.of_nat (length (w_allLinks w))) (MaxTotalLinks cfg)) as [Hle | Hgt];
    [left; exact Hle | right].
  revert Hl Hok. generalize (w_adds w) as l.
  intros l. induction l as [|[u n] pre _] using rev_ind; intros Hl Hok.
  - cbn in Hl. rewrite Hl in Hgt. lia.
  - exists pre, u, n. rewrite map_app, list_sum_app in Hl. cbn in Hl.
    pose proof (Hok pre (u, n) [] eq_refl) as Hp.
    split; [reflexivity|]. split; [lia|]. lia.
Qed.

(** X1: a walk that runs alone (no other worker touches the scanner's
    counter) keeps the budget of C2: with [maxTotalLinks = T > 0] it
    returns at most [T] file URLs, or its last counter addition is the
    first to push the counter over [T] and it returns [T] plus at most
    that directory's file count. *)
Theorem walk_alone_budget (E : Env) (cfg : Config) (hostURL htmlContent : string)
    (maxDepth count : Z) :
  (0 < MaxTotalLinks cfg)%Z -> (0 < maxDepth)%Z ->
  let wk := ScanHostRecursive E cfg hostURL htmlContent maxDepth count [] in
  (Z.of_nat (length (w_allLinks wk)) <= MaxTotalLinks cfg)%Z \/
  exists pre u n, w_adds wk = app pre [(u, n)] /\
    (Z.of_nat (list_sum (map snd pre)) <= MaxTotalLinks cfg <
     Z.of_nat (list_sum (map snd pre)) + Z.of_nat n)%Z /\
    length (w_allLinks wk) = (list_sum (map snd pre) + n)%nat.
Proof.
  intros HT Hd wk. subst wk. apply walk_inv_bound; [lia|].
  unfold ScanHostRecursive. destruct (Z.leb_spec maxDepth 0) as [Hle | _]; [lia|].
  apply scanRecursive_inv; [exact HT|]. apply walk_inv_start. reflexivity.
Qed.

Lemma walk_alone_budget_witness :
  let E := toy_env (fun u => if String.eqb u "http://h.test/d1/" then mkFetch true "apache/ g1.pdf" false
                             else if String.eqb u "http://h.test/d2/" then mkFetch true "apache/ g2.pdf g3.pdf" false
                             else mkFetch false "" false) binary_http in
  let wk := ScanHostRecursive E (mkConfig 0 3 0 true) "http://h.test/" "f1.pdf f2.pdf f3.pdf d1/ d2/" 2 0 [] in
  (Z.of_nat (length (w_allLinks wk)) <= 3)%Z \/
  exists pre u n, w_adds wk = app pre [(u, n)] /\
    (Z.of_nat (list_sum (map snd pre)) <= 3 < Z.of_nat (list_sum (map snd pre)) + Z.of_nat n)%Z /\
    length (w_allLinks wk) = (list_sum (map snd pre) + n)%nat.
Proof.
  exact (walk_alone_budget
           (toy_env (fun u => if String.eqb u "http://h.test/d1/" then mkFetch true "apache/ g1.pdf" false
                              else if String.eqb u "http://h.test/d2/" then mkFetch true "apache/ g2.pdf g3.pdf" false
                              else mkFetch false "" false) binary_http)
           (mkConfig 0 3 0 true) "http://h.test/" "f1.pdf f2.pdf f3.pdf d1/ d2/" 2 0
           ltac:(reflexivity) ltac:(reflexivity)).
Defined.

End WalkFacts.

(** ** RFC 3339 formatting and parsing *)

Module TimeFacts.
Import GoStr GoTime.
Local Open Scope Z_scope.

Lemma string_app_assoc (a b c : string) : (a ++ b) ++ c = a ++ (b ++ c).
Proof. induction a as [|x a IH]; [reflexivity|]. exact (f_equal (String x) IH). Qed.

Lemma pad_go_app (n : nat) (v : Z) (acc : string) : pad_go n v acc = pad_go n v "" ++ acc.
Proof.
  revert v acc. induction n as [|n IH]; intros v acc; cbn; [reflexivity|].
  rewrite (IH _ (String _ acc)), (IH _ (String _ "")), string_app_assoc. reflexivity.
Qed.

Lemma pad_S (n : nat) (v : Z) :
  pad (S n) v = pad n (v / 10) ++ String (digit_char (v mod 10)) "".
Proof. unfold pad. cbn. apply pad_go_app. Qed.

Lemma read_digits_add (n m : nat) (s : string) (acc : Z) :
  read_digits (n + m) s acc =
  match read_digits n s acc with Some (a, r) => read_digits m r a | None => None end.
Proof.
  revert s acc. induction n as [|n IH]; intros s acc; cbn; [reflexivity|].
  destruct s as [|c r]; [reflexivity|]. destruct (digit_val c); [apply IH | reflexivity].
Qed.

Lemma digit_val_digit_char (d : Z) : 0 <= d <= 9 -> digit_val (digit_char d) = Some d.
Proof.
  intros Hd.
  assert (d = 0 \/ d = 1 \/ d = 2 \/ d = 3 \/ d = 4 \/ d = 5 \/ d = 6 \/ d = 7 \/ d = 8 \/ d = 9)
    as Hc by lia.
  repeat destruct Hc as [-> | Hc]; try reflexivity. subst. reflexivity.
Qed.

Lemma read_digits_pad (n : nat) (v : Z) (rest : string) (acc : Z) :
  read_digits n (pad n v ++ rest) acc = Some (acc * 10 ^ Z.of_nat n + v mod 10 ^ Z.of_nat n, rest).
Proof.
  revert v rest acc. induction n as [|n IH]; intros v rest acc.
  - cbn. rewrite Z.mod_1_r. f_equal. f_equal. lia.
  - rewrite pad_S, string_app_assoc, <- Nat.add_1_r, read_digits_add, IH.
    change (String (digit_char (v mod 10)) "" ++ rest) with (String (digit_char (v mod 10)) rest).
    cbn -[digit_val digit_char Z.pow Z.mul Z.add Z.modulo Z.div].
    rewrite digit_val_digit_char by (pose proof (Z.mod_pos_bound v 10); lia).
    assert (Hp : 10 ^ Z.of_nat (n + 1) = 10 * 10 ^ Z.of_nat n).
    { rewrite Nat2Z.inj_add, Z.pow_add_r by lia. rewrite Z.pow_1_r. ring. }
    assert (Hpos : 0 < 10 ^ Z.of_nat n) by (apply Z.pow_pos_nonneg; lia).
    assert (Hm : v mod (10 * 10 ^ Z.of_nat n) = v mod 10 + 10 * ((v / 10) mod 10 ^ Z.of_nat n)).
    { rewrite (Z.mod_eq v (10 * _)), (Z.mod_eq v 10), (Z.mod_eq (v / 10) _), <- Z.div_div by lia.
      ring. }
    rewrite Hp, Hm. f_equal. f_equal. ring.
Qed.

Lemma read_digits_pad_small (n : nat) (v : Z) (rest : string) :
  0 <= v < 10 ^ Z.of_nat n -> read_digits n (pad n v ++ rest) 0 = Some (v, rest).
Proof. intros Hv. rewrite read_digits_pad, Z.mod_small by exact Hv. reflexivity. Qed.

Lemma string_app_nil_r (a : string) : a ++ "" = a.
Proof. induction a as [|x a IH]; [reflexivity|]. exact (f_equal (String x) IH). Qed.

Lemma read_digits_pad_end (n : nat) (v : Z) :
  0 <= v < 10 ^ Z.of_nat n -> read_digits n (pad n v) 0 = Some (v, "").
Proof.
  intros Hv. rewrite <- (string_app_nil_r (pad n v)). apply read_digits_pad_small. exact Hv.
Qed.

Lemma format_zone_parts (hr mm : Z) :
  0 <= hr <= 23 -> 0 <= mm <= 59 -> (hr * 60 + mm) / 60 = hr /\ (hr * 60 + mm) mod 60 = mm.
Proof.
  intros Hh Hm. split.
  - rewrite Z.div_add_l by lia. rewrite Z.div_small by lia. lia.
  - rewrite Z.add_comm, Z.mod_add by lia. apply Z.mod_small. lia.
Qed.

Ltac read_zone_tail hr mm :=
  unfold read_zone; cbn [Ascii.eqb Bool.eqb]; rewrite read_digits_pad_small by (cbn; lia);
  cbn [mbind option_bind];
  change (":" ++ pad 2 mm) with (String ":"%char (pad 2 mm));
  cbn [mbind option_bind lit Ascii.eqb Bool.eqb];
  rewrite read_digits_pad_end by (cbn; lia); cbn [mbind option_bind];
  replace (hr <=? 23) with true by (symmetry; apply Z.leb_le; lia);
  replace (mm <=? 59) with true by (symmetry; apply Z.leb_le; lia);
  cbn; f_equal.

(** The zone [Format] writes is read back by [Parse], and it does not
    start a fraction. *)
Lemma read_zone_format (off : Z) :
  (exists hr mm, 0 <= hr <= 23 /\ 0 <= mm <= 59 /\
     (off = (hr * 60 + mm) * 60 \/ off = - ((hr * 60 + mm) * 60))) ->
  read_zone (format_zone off) = Some off /\ read_frac (format_zone off) = (0, format_zone off).
Proof.
  intros (hr & mm & Hh & Hm & Hoff).
  destruct (Z.eqb_spec off 0) as [-> | Hne].
  { unfold format_zone. rewrite Z.eqb_refl. split; reflexivity. }
  destruct (format_zone_parts hr mm Hh Hm) as [Hq Hr].
  unfold format_zone. apply Z.eqb_neq in Hne. rewrite Hne. apply Z.eqb_neq in Hne.
  destruct Hoff as [Hoff | Hoff].
  - assert (Hz : off / 60 = hr * 60 + mm) by (rewrite Hoff; apply Z.div_mul; lia).
    rewrite Hz. replace (hr * 60 + mm <? 0) with false by (symmetry; apply Z.ltb_ge; lia).
    rewrite Z.abs_eq by lia. rewrite Hq, Hr. split; [|reflexivity].
    read_zone_tail hr mm. lia.
  - assert (Hz : off / 60 = - (hr * 60 + mm)).
    { rewrite Hoff, Z.div_opp_l_z by (try lia; rewrite Z.mod_mul; lia). rewrite Z.div_mul by lia.
      reflexivity. }
    rewrite Hz. replace (- (hr * 60 + mm) <? 0) with true by (symmetry; apply Z.ltb_lt; lia).
    rewrite Z.abs_neq by lia. rewrite Z.opp_involutive, Hq, Hr. split; [|reflexivity].
    read_zone_tail hr mm. lia.
Qed.

Lemma daysIn_le (m y : Z) : daysIn m y <= 31.
Proof. unfold daysIn. repeat case_match; lia. Qed.

Ltac parse_field :=
  rewrite read_digits_pad_small by (cbn; lia); cbn [mbind option_bind];
  try (lazymatch goal with
       | |- context [lit ?c (?s ++ ?r)] => change (s ++ r) with (String c r)
       end;
       cbn [mbind option_bind lit Ascii.eqb Bool.eqb]).

(** [time.Parse(time.RFC3339, t.Format(time.RFC3339))] is [t] without
    its fraction. *)
Lemma parse_format (t : Time) : valid_time t -> parseRFC3339 (formatRFC3339 t) = Some (truncate_sec t).
Proof.
  destruct t as [y mo d h mi s ns off].
  intros (Hy & Hmo & Hd & Hh & Hmi & Hs & Hoff).
  cbn [t_year t_month t_day t_hour t_min t_sec t_nsec t_offset] in *.
  pose proof (daysIn_le mo y).
  destruct (read_zone_format off Hoff) as [Hz Hf].
  unfold parseRFC3339, formatRFC3339; cbn [t_year t_month t_day t_hour t_min t_sec t_offset].
  do 6 parse_field.
  rewrite Hf. cbv beta iota. rewrite Hz. cbn [mbind option_bind].
  repeat match goal with |- context [?a <=? ?b] => replace (a <=? b) with true by (symmetry; apply Z.leb_le; lia) end.
  reflexivity.
Qed.

Lemma digit_char_not_space (v : Z) : is_space (digit_char (v mod 10)) = false.
Proof.
  pose proof (Z.mod_pos_bound v 10 ltac:(lia)) as Hb.
  assert (v mod 10 = 0 \/ v mod 10 = 1 \/ v mod 10 = 2 \/ v mod 10 = 3 \/ v mod 10 = 4 \/
          v mod 10 = 5 \/ v mod 10 = 6 \/ v mod 10 = 7 \/ v mod 10 = 8 \/ v mod 10 = 9)
    as Hc by lia.
  repeat destruct Hc as [Hc | Hc]; rewrite Hc; reflexivity.
Qed.

Lemma no_space_app (a b : string) : no_space (a ++ b) = no_space a && no_space b.
Proof.
  induction a as [|c a IH]; [reflexivity|].
  change (String c a ++ b) with (String c (a ++ b)). cbn [no_space]. rewrite IH. apply andb_assoc.
Qed.

Lemma no_space_pad_go (n : nat) (v : Z) (acc : string) :
  no_space (pad_go n v acc) = no_space acc.
Proof.
  revert v acc. induction n as [|n IH]; intros v acc; [reflexivity|].
  cbn [pad_go]. rewrite IH. cbn [no_space]. rewrite digit_char_not_space. reflexivity.
Qed.

Lemma no_space_pad (n : nat) (v : Z) : no_space (pad n v) = true.
Proof. unfold pad. rewrite no_space_pad_go. reflexivity. Qed.

Lemma no_space_format (t : Time) : no_space (formatRFC3339 t) = true.
Proof.
  unfold formatRFC3339, format_zone.
  repeat (rewrite no_space_app || rewrite no_space_pad).
  case_match; [reflexivity|]. cbn [no_space].
  repeat (rewrite no_space_app || rewrite no_space_pad). case_match; reflexivity.
Qed.

Lemma format_not_empty (t : Time) : formatRFC3339 t <> "".
Proof.
  unfold formatRFC3339. change ("-" ++ ?r) with (String "-"%char r).
  destruct (pad 4 (t_year t)); discriminate.
Qed.

Lemma TrimRight_no_space (s : string) : no_space s = true -> TrimRight s = s.
Proof.
  induction s as [|c r IH]; [reflexivity|]. cbn [no_space TrimRight].
  intros [Hc Hr]%andb_prop. rewrite IH by exact Hr. apply negb_true_iff in Hc. rewrite Hc. reflexivity.
Qed.

Lemma TrimRight_app (a s : string) :
  s <> "" -> TrimRight s = s -> TrimRight (a ++ s) = a ++ s.
Proof.
  intros Hs Ht. induction a as [|c a IH]; [exact Ht|].
  change (String c a ++ s) with (String c (a ++ s)). cbn [TrimRight]. rewrite IH.
  destruct a, s; try contradiction; cbn; rewrite ?andb_false_r; reflexivity.
Qed.

Lemma fields_go_no_space (s rest cur : string) :
  no_space s = true -> fields_go (s ++ rest) cur = fields_go rest (cur ++ s).
Proof.
  revert cur. induction s as [|c s IH]; intros cur Hs.
  - rewrite string_app_nil_r. reflexivity.
  - cbn [no_space] in Hs. apply andb_prop in Hs as [Hc Hs]. apply negb_true_iff in Hc.
    change (String c s ++ rest) with (String c (s ++ rest)).
    cbn [fields_go]. rewrite Hc, IH by exact Hs. rewrite string_app_assoc. reflexivity.
Qed.

Lemma HasPrefix_hash_app (a b : string) :
  a <> "" -> HasPrefix (a ++ b) "#" = HasPrefix a "#".
Proof.
  destruct a as [|c a]; [contradiction|]. intros _. unfold HasPrefix.
  change (String c a ++ b) with (String c (a ++ b)). cbn [String.prefix].
  destruct (ascii_dec "#" c); [destruct a; [destruct b|]|]; reflexivity.
Qed.


Lemma digit_val_range (c : ascii) (d : Z) : digit_val c = Some d -> 0 <= d <= 9.
Proof.
  unfold digit_val. cbv zeta. destruct (Nat.leb_spec 48 (nat_of_ascii c)), (Nat.leb_spec (nat_of_ascii c) 57);
    cbn; intros Hd; inversion Hd; lia.
Qed.

Lemma read_digits_range (n : nat) (s : string) (acc v : Z) (r : string) :
  0 <= acc -> read_digits n s acc = Some (v, r) ->
  acc * 10 ^ Z.of_nat n <= v < (acc + 1) * 10 ^ Z.of_nat n.
Proof.
  revert s acc. induction n as [|n IH]; intros s acc Hacc H.
  - cbn in H. inversion H; subst. cbn. lia.
  - cbn in H. destruct s as [|c s]; [discriminate|].
    destruct (digit_val c) as [d|] eqn:Hd; [|discriminate].
    apply digit_val_range in Hd.
    apply IH in H; [|lia].
    rewrite Nat2Z.inj_succ, Z.pow_succ_r by lia.
    assert (0 < 10 ^ Z.of_nat n) by (apply Z.pow_pos_nonneg; lia). nia.
Qed.

Lemma read_digits_bound (n : nat) (s : string) (v : Z) (r : string) :
  read_digits n s 0 = Some (v, r) -> 0 <= v < 10 ^ Z.of_nat n.
Proof. intros H. apply read_digits_range in H; lia. Qed.

Lemma read_zone_valid (s : string) (off : Z) :
  read_zone s = Some off ->
  exists hr mm, 0 <= hr <= 23 /\ 0 <= mm <= 59 /\
    (off = (hr * 60 + mm) * 60 \/ off = - ((hr * 60 + mm) * 60)).
Proof.
  unfold read_zone. destruct s as [|sgn r]; [discriminate|].
  destruct (Ascii.eqb sgn "Z"%char).
  { destruct (String.eqb r ""); intros H; inversion H; subst. exists 0, 0. lia. }
  destruct (read_digits 2 r 0) as [[hr r1]|] eqn:H1; cbn [mbind option_bind]; [|discriminate].
  destruct (lit ":"%char r1) as [r2|]; cbn [mbind option_bind]; [|discriminate].
  destruct (read_digits 2 r2 0) as [[mm r3]|] eqn:H3; cbn [mbind option_bind]; [|discriminate].
  apply read_digits_bound in H1, H3.
  destruct (String.eqb r3 ""), (Z.leb_spec hr 23), (Z.leb_spec mm 59); cbn; try discriminate.
  intros Hres. exists hr, mm. do 2 (split; [lia|]).
  destruct (Ascii.eqb sgn "+"%char); [inversion Hres; auto|].
  destruct (Ascii.eqb sgn "-"%char); inversion Hres; auto.
Qed.

(** What [parseRFC3339] returns, [Format] writes faithfully. *)
Lemma parse_valid (s : string) (t : Time) : parseRFC3339 s = Some t -> valid_time t.
Proof.
  unfold parseRFC3339. intros H.
  repeat match type of H with
  | context [read_digits ?n ?s0 0] =>
      let E := fresh "E" in
      destruct (read_digits n s0 0) as [[? ?]|] eqn:E; cbn [mbind option_bind] in H;
      [apply read_digits_bound in E; cbn in E|discriminate]
  | context [lit ?c ?s0] =>
      destruct (lit c s0); cbn [mbind option_bind] in H; [|discriminate]
  end.
  destruct (read_frac _) as [nsec sz]. 
  destruct (read_zone sz) as [off|] eqn:Ez; cbn [mbind option_bind] in H; [|discriminate].
  apply read_zone_valid in Ez.
  repeat match type of H with
  | context [?a <=? ?b] => destruct (Z.leb_spec a b); cbn [andb] in H
  end; try discriminate.
  inversion H; subst. unfold valid_time; cbn. repeat split; try lia. exact Ez.
Qed.


Lemma TrimLeft_app (a b : string) :
  a <> "" -> no_space a = true -> TrimLeft (a ++ b) = a ++ b.
Proof.
  destruct a as [|c a]; [contradiction|]. intros _ Hn.
  cbn [no_space] in Hn. apply andb_prop in Hn as [Hc _]. apply negb_true_iff in Hc.
  change (String c a ++ b) with (String c (a ++ b)). cbn [TrimLeft]. rewrite Hc. reflexivity.
Qed.

Lemma fields_go_single (s : string) : s <> "" -> no_space s = true -> fields_go s "" = [s].
Proof.
  intros Hne Hs. pose proof (fields_go_no_space s "" "" Hs) as H.
  rewrite string_app_nil_r in H. rewrite H. cbn. destruct s; [contradiction|reflexivity].
Qed.

Lemma TrimSpace_head (s : string) :
  TrimSpace s = "" \/ exists c r, TrimSpace s = String c r /\ is_space c = false.
Proof.
  unfold TrimSpace.
  assert (H : TrimLeft s = "" \/ exists c r, TrimLeft s = String c r /\ is_space c = false).
  { induction s as [|c r IH]; [left; reflexivity|]. cbn [TrimLeft].
    destruct (is_space c) eqn:Hc; [exact IH|]. right. exists c, r. auto. }
  destruct H as [-> | (c & r & -> & Hc)]; [left; reflexivity|].
  right. exists c, (TrimRight r). cbn [TrimRight]. rewrite Hc. auto.
Qed.

Lemma fields_go_elems (s cur : string) :
  no_space cur = true -> Forall (fun x => x <> "" /\ no_space x = true) (fields_go s cur).
Proof.
  revert cur. induction s as [|c r IH]; intros cur Hcur; cbn [fields_go].
  - destruct (String.eqb_spec cur ""); constructor; auto.
  - destruct (is_space c) eqn:Hc.
    + destruct (String.eqb_spec cur ""); [apply IH; reflexivity|].
      constructor; [auto|]. apply IH. reflexivity.
    + apply IH. rewrite no_space_app, Hcur. cbn. rewrite Hc. reflexivity.
Qed.

Lemma fields_go_first (c : ascii) (r cur h : string) (rest : list string) :
  fields_go r (String c cur) = h :: rest -> exists x, h = String c x.
Proof.
  revert cur. induction r as [|d r IH]; intros cur; cbn [fields_go].
  - intros H. inversion H. eauto.
  - destruct (is_space d).
    + intros H. inversion H. eauto.
    + change (String c cur ++ String d "") with (String c (cur ++ String d "")). apply IH.
Qed.

End TimeFacts.

(** ** Saving and reloading the blocklist *)

Module BlocklistFacts.
Import GoStr GoTime Blocklist TimeFacts.
Local Open Scope Z_scope.

(** A data line [Save] writes is read back by [Load]. *)
Lemma load_line_save (now : Time) (m : gmap string Time) (h : string) (t : Time) :
  hostname_ok h -> valid_time t ->
  load_line now m (save_line (h, t)) = <[h := truncate_sec t]> m.
Proof.
  intros (Hne & Hns & Hhash) Ht. unfold load_line, save_line. cbn [fst snd].
  pose proof (no_space_format t) as HF. pose proof (format_not_empty t) as HFne.
  assert (Htrim : TrimSpace (h ++ " " ++ formatRFC3339 t) = h ++ " " ++ formatRFC3339 t).
  { unfold TrimSpace. rewrite TrimLeft_app by assumption.
    rewrite <- string_app_assoc. apply TrimRight_app; [exact HFne|].
    apply TrimRight_no_space. exact HF. }
  rewrite Htrim, HasPrefix_hash_app, Hhash by exact Hne.
  replace (String.eqb (h ++ " " ++ formatRFC3339 t) "") with false
    by (destruct h; [contradiction|reflexivity]).
  cbn [orb]. unfold Fields. rewrite fields_go_no_space by exact Hns. change ("" ++ h) with h.
  change (" " ++ formatRFC3339 t) with (String " "%char (formatRFC3339 t)).
  cbn [fields_go append]. replace (is_space " "%char) with true by reflexivity.
  replace (String.eqb h "") with false by (destruct h; [contradiction|reflexivity]).
  rewrite fields_go_single by assumption. rewrite parse_format by exact Ht. reflexivity.
Qed.

Lemma load_line_comment (now : Time) (m : gmap string Time) (r : string) :
  load_line now m (String "#"%char r) = m.
Proof.
  unfold load_line, TrimSpace.
  change (TrimRight (TrimLeft (String "#"%char r))) with (String "#"%char (TrimRight r)).
  unfold HasPrefix. destruct (TrimRight r); reflexivity.
Qed.

Lemma fold_load_saved (now : Time) (l : list (string * Time)) (m : gmap string Time) :
  Forall (fun e => hostname_ok e.1 /\ valid_time e.2) l ->
  fold_left (load_line now) (map save_line l) m =
  fold_left (fun m e => <[e.1 := truncate_sec e.2]> m) l m.
Proof.
  revert m. induction l as [|[h t] l IH]; intros m Hl; [reflexivity|].
  inversion Hl as [|? ? [Hh Ht] Hl']; subst. cbn [map fold_left].
  rewrite load_line_save by assumption. apply IH. exact Hl'.
Qed.

Lemma fold_insert_lookup {A B} (g : A -> B) (l : list (string * A)) (m : gmap string B) (h : string) :
  NoDup l.*1 ->
  fold_left (fun m e => <[e.1 := g e.2]> m) l m !! h =
  match (list_to_map l : gmap string A) !! h with Some v => Some (g v) | None => m !! h end.
Proof.
  revert m. induction l as [|[k v] l IH]; intros m Hnd; [reflexivity|].
  cbn [fmap list_fmap fst] in Hnd. apply list.NoDup_cons in Hnd as [Hk Hnd].
  cbn [fold_left list_to_map fold_right fst snd]. rewrite IH by exact Hnd.
  destruct (String.eq_dec h k) as [-> | Hne].
  - rewrite lookup_insert_eq, not_elem_of_list_to_map_1 by exact Hk.
    rewrite lookup_insert_eq. reflexivity.
  - rewrite !lookup_insert_ne by congruence. reflexivity.
Qed.

(** Reading back a saved blocklist. *)
Lemma Save_Load (now now' : Time) (b : Blocklist) (lines : list string) :
  map_Forall (fun h t => hostname_ok h /\ valid_time t) (hosts b) ->
  Save now b = Some lines ->
  hosts (Load now' (Some lines) (NewBlocklist true)) = truncate_sec <$> hosts b.
Proof.
  intros Hok HS. unfold Save in HS. destruct (enabled b); cbn in HS; inversion HS; subst; clear HS.
  unfold Load. cbn [enabled NewBlocklist negb hosts]. idtac.
  cbn [fold_left]. change ("# Censei Blocklist - Generated on " ++ formatRFC3339 now)
    with (String "#"%char (" Censei Blocklist - Generated on " ++ formatRFC3339 now)).
  rewrite !load_line_comment. change (load_line now' ∅ "") with (∅ : gmap string Time).
  rewrite fold_load_saved.
  2:{ apply map_Forall_to_list in Hok. revert Hok. apply List.Forall_impl. intros [h t]. auto. }
  apply map_eq. intros h. rewrite fold_insert_lookup by apply NoDup_fst_map_to_list.
  rewrite list_to_map_to_list, lookup_fmap, lookup_empty. destruct (hosts b !! h); reflexivity.
Qed.


Lemma load_line_ok (now : Time) (m : gmap string Time) (line : string) :
  valid_time now ->
  map_Forall (fun h t => hostname_ok h /\ valid_time t) m ->
  map_Forall (fun h t => hostname_ok h /\ valid_time t) (load_line now m line).
Proof.
  intros Hnow Hm. unfold load_line.
  destruct (TrimSpace_head line) as [E | (c & r & E & Hc)]; rewrite E; [exact Hm|].
  destruct (HasPrefix (String c r) "#") eqn:Hh; [rewrite orb_true_r; exact Hm|].
  rewrite orb_false_r. change (String.eqb (String c r) "") with false. cbv iota.
  destruct (Fields (String c r)) as [|hostname rest] eqn:HF; [exact Hm|].
  apply map_Forall_insert_2; [|exact Hm]. split.
  - pose proof (fields_go_elems (String c r) "" eq_refl) as Hel.
    unfold Fields in HF. rewrite HF in Hel. apply Forall_cons_1 in Hel as [[Hne Hns] _].
    split; [exact Hne|]. split; [exact Hns|].
    unfold fields_go in HF. fold fields_go in HF. rewrite Hc in HF.
    change ("" ++ String c "") with (String c "") in HF.
    apply fields_go_first in HF as [x ->].
    change (String c x) with (String c "" ++ x).
    change (String c r) with (String c "" ++ r) in Hh.
    rewrite HasPrefix_hash_app in Hh |- * by discriminate. exact Hh.
  - destruct rest as [|ts rest]; [exact Hnow|].
    destruct (parseRFC3339 ts) as [t|] eqn:Ep; [|exact Hnow].
    eapply parse_valid. exact Ep.
Qed.

(** [Load] only stores hostnames and times [Save] writes faithfully. *)
Lemma Load_ok (now : Time) (lines : list string) (m : gmap string Time) :
  valid_time now ->
  map_Forall (fun h t => hostname_ok h /\ valid_time t) m ->
  map_Forall (fun h t => hostname_ok h /\ valid_time t) (fold_left (load_line now) lines m).
Proof.
  intros Hnow. revert m. induction lines as [|l lines IH]; intros m Hm; [exact Hm|].
  cbn [fold_left]. apply IH. apply load_line_ok; assumption.
Qed.

(** C7 (amended).  Load a blocklist file (any lines, with a valid
    [time.Now()]), save the result, and load the saved file again: every
    hostname of the first load comes back, no other, and each with the
    timestamp of the first load truncated to the whole second, since
    [Format(time.RFC3339)] drops the fraction.  A fractional timestamp
    therefore comes back earlier, never later. *)
Theorem Load_Save_roundtrip (now now' now'' : Time) (file : list string) :
  valid_time now ->
  exists lines,
    Save now' (Load now (Some file) (NewBlocklist true)) = Some lines /\
    hosts (Load now'' (Some lines) (NewBlocklist true)) =
      truncate_sec <$> hosts (Load now (Some file) (NewBlocklist true)).
Proof.
  intros Hnow.
  assert (Hok : map_Forall (fun h t => hostname_ok h /\ valid_time t)
                  (hosts (Load now (Some file) (NewBlocklist true)))).
  { apply Load_ok; [exact Hnow|]. apply map_Forall_empty. }
  eexists. split; [reflexivity|]. eapply Save_Load; [exact Hok|reflexivity].
Qed.

Lemma Load_Save_roundtrip_witness :
  exists lines,
    Save (mkTime 2025 1 1 0 0 0 0 0)
      (Load (mkTime 2025 1 1 0 0 0 0 0) (Some ["a.test 2024-01-01T00:00:00.5Z"; "b.test"])
         (NewBlocklist true)) = Some lines /\
    hosts (Load (mkTime 2025 1 1 0 0 0 0 0) (Some lines) (NewBlocklist true)) =
      truncate_sec <$> hosts (Load (mkTime 2025 1 1 0 0 0 0 0)
                                (Some ["a.test 2024-01-01T00:00:00.5Z"; "b.test"]) (NewBlocklist true)).
Proof.
  apply (Load_Save_roundtrip (mkTime 2025 1 1 0 0 0 0 0) (mkTime 2025 1 1 0 0 0 0 0)
           (mkTime 2025 1 1 0 0 0 0 0) ["a.test 2024-01-01T00:00:00.5Z"; "b.test"]).
  unfold valid_time; cbn. repeat split; try lia. exists 0, 0. lia.
Defined.

(** C7 (counterexample).  The line [a.test 2024-01-01T00:00:00.5Z] is
    loaded with its half second; [Save] writes [2024-01-01T00:00:00Z], a
    time [Before] the loaded one. *)
Lemma blocklist_fraction_truncated :
  exists t_in t_out,
    hosts (Load (mkTime 2025 1 1 0 0 0 0 0) (Some ["a.test 2024-01-01T00:00:00.5Z"])
             (NewBlocklist true)) !! "a.test" = Some t_in /\
    Save (mkTime 2025 1 1 0 0 0 0 0)
      (Load (mkTime 2025 1 1 0 0 0 0 0) (Some ["a.test 2024-01-01T00:00:00.5Z"])
         (NewBlocklist true)) =
      Some ["# Censei Blocklist - Generated on 2025-01-01T00:00:00Z";
            "# Format: hostname timestamp";
            "# Hosts that exceeded skip limits and are permanently blocked";
            "";
            "a.test 2024-01-01T00:00:00Z"] /\
    parseRFC3339 "2024-01-01T00:00:00Z" = Some t_out /\
    Before t_out t_in.
Proof.
  exists (mkTime 2024 1 1 0 0 0 500000000 0), (mkTime 2024 1 1 0 0 0 0 0).
  split; [vm_compute; reflexivity|]. split; [vm_compute; reflexivity|].
  split; [vm_compute; reflexivity|]. unfold Before. right. split; [reflexivity|]. cbn. lia.
Qed.

End BlocklistFacts.

(** ** The blocklist's getters and its background saver *)

Module BlocklistRunFacts.
Import GoTime Blocklist BlocklistRun.

(** X2: on an enabled blocklist, [AddHost] makes the host blocked; a
    host already present keeps its first timestamp and adds nothing to
    [GetBlockedCount] nor a save signal, a new one is recorded at [now],
    counts once more and queues a save signal; other hosts are untouched.
    A disabled blocklist ignores [AddHost], blocks nothing, counts 0 and
    returns an empty map. *)
Theorem AddHost_getters (now : Time) (h : string) (b : Blocklist) :
  (enabled b = true ->
     IsBlocked h (AddHost now h b) = true /\
     GetBlockedCount (AddHost now h b) =
       (if IsBlocked h b then GetBlockedCount b else S (GetBlockedCount b)) /\
     GetBlockedHosts (AddHost now h b) !! h =
       Some (default now (GetBlockedHosts b !! h)) /\
     (forall h', h' <> h -> GetBlockedHosts (AddHost now h b) !! h' = GetBlockedHosts b !! h') /\
     savePending (AddHost now h b) = (if IsBlocked h b then savePending b else true)) /\
  (enabled b = false ->
     AddHost now h b = b /\ IsBlocked h b = false /\ GetBlockedCount b = 0 /\
     GetBlockedHosts b = ∅).
Proof.
  destruct b as [m en sp]; cbn [enabled]. split.
  - intros ->. unfold IsBlocked, AddHost, GetBlockedCount, GetBlockedHosts; cbn.
    destruct (m !! h) as [t|] eqn:Hm; cbn.
    + rewrite bool_decide_true by eauto. cbn.
      repeat split; auto.
    + rewrite lookup_insert_eq, bool_decide_true by eauto.
      repeat split; auto.
      * rewrite map_size_insert_None by exact Hm. reflexivity.
      * intros h' Hne. apply lookup_insert_ne. congruence.
  - intros ->. repeat split.
Qed.


(** The invariant of a run from [saver_start saved0 b]: an exited worker
    has no save pending, and when no save failed and no signal is queued
    or pending, either the file is as it was and the hosts are the loaded
    ones, or the file states the current hosts. *)
Definition saver_inv (saved0 : gmap string Time) (b : Blocklist) (s : Saver) : Prop :=
  (sv_done s = true -> sv_pending s = false) /\
  (sv_failed s = false -> savePending (sv_b s) = false -> sv_pending s = false ->
   (sv_saved s = saved0 /\ hosts (sv_b s) = hosts b) \/
   sv_saved s = truncate_sec <$> hosts (sv_b s)).

Lemma saver_step_inv (saved0 : gmap string Time) (b : Blocklist) (s s' : Saver) :
  saver_step s s' -> saver_inv saved0 b s -> saver_inv saved0 b s'.
Proof.
  intros Hs [Hd Hsv]. destruct Hs as [now h s|s Hdone Hch|r s Hdone Ht|s Hst|r s Hdone Hst];
    unfold saver_inv in *; cbn [sv_done sv_pending sv_failed sv_saved sv_b] in *.
  - split; [exact Hd|]. intros Hf Hch Hp.
    unfold AddHost in *. destruct (enabled (sv_b s)); cbn in *; [|auto].
    destruct (hosts (sv_b s) !! h); cbn in *; [auto|discriminate].
  - split; [discriminate|]. intros _ _ Hp; discriminate.
  - destruct (sv_pending s) eqn:Hp; cbn [sv_done sv_pending sv_failed sv_saved sv_b];
      (split; [discriminate|]).
    + unfold saver_save. destruct r; cbn; [intros; right; reflexivity|discriminate|discriminate].
    + intros Hf Hch _. apply Hsv; auto.
  - split; [exact Hd|exact Hsv].
  - destruct (sv_pending s) eqn:Hp; cbn [sv_done sv_pending sv_failed sv_saved sv_b];
      (split; [reflexivity|]).
    + unfold saver_save. destruct r; cbn; [intros; right; reflexivity|discriminate|discriminate].
    + intros Hf Hch _. apply Hsv; auto.
Qed.

Lemma saver_rtc_inv (saved0 : gmap string Time) (b : Blocklist) (s s' : Saver) :
  rtc saver_step s s' -> saver_inv saved0 b s -> saver_inv saved0 b s'.
Proof.
  induction 1 as [s|s1 s2 s3 H12 H23 IH]; [auto|].
  intros Hi. apply IH. exact (saver_step_inv _ _ _ _ H12 Hi).
Qed.

(** X3: once the save worker has exited, when none of its saves failed
    and no save signal is left in [saveChan], either no host was added to
    the blocklist loaded from the file and the file may never have been
    rewritten, or the file states exactly the blocked hosts, each with its
    timestamp truncated to the whole second. *)
Theorem saver_final_file (saved0 : gmap string Time) (b : Blocklist) (s : Saver) :
  savePending b = false ->
  rtc saver_step (saver_start saved0 b) s ->
  sv_done s = true -> sv_failed s = false -> savePending (sv_b s) = false ->
  (sv_saved s = saved0 /\ hosts (sv_b s) = hosts b) \/
  sv_saved s = truncate_sec <$> hosts (sv_b s).
Proof.
  intros Hch0 Hr Hd Hf Hch.
  assert (Hi : saver_inv saved0 b s).
  { apply (saver_rtc_inv _ _ _ _ Hr). split; [discriminate|]. intros; left; split; reflexivity. }
  destruct Hi as [Hdp Hsv]. apply Hsv; auto.
Qed.

Lemma saver_final_file_witness :
  let now := mkTime 2026 10 15 1 2 3 500000000 0 in
  let saved0 := {[ "old.test" := now ]} in
  let b := mkBlocklist ∅ true false in
  let b1 := mkBlocklist (hosts (AddHost now "x.test" b)) true false in
  let s := mkSaver b1 false false true true (truncate_sec <$> hosts b1) false in
  (savePending b = false /\ rtc saver_step (saver_start saved0 b) s /\
   sv_done s = true /\ sv_failed s = false /\ savePending (sv_b s) = false) /\
  ((sv_saved s = saved0 /\ hosts (sv_b s) = hosts b) \/
   sv_saved s = truncate_sec <$> hosts (sv_b s)) /\
  sv_saved s ={[ "x.test" := mkTime 2026 10 15 1 2 3 0 0 ]}.
Proof.
  cbv zeta.
  assert (Hr : rtc saver_step
    (saver_start {[ "old.test" := mkTime 2026 10 15 1 2 3 500000000 0 ]} (mkBlocklist ∅ true false))
    (mkSaver (mkBlocklist (hosts (AddHost (mkTime 2026 10 15 1 2 3 500000000 0) "x.test"
                                     (mkBlocklist ∅ true false))) true false)
       false false true true
       (truncate_sec <$> hosts (AddHost (mkTime 2026 10 15 1 2 3 500000000 0) "x.test"
                                  (mkBlocklist ∅ true false))) false)).
  { eapply rtc_l; [apply (step_AddHost (mkTime 2026 10 15 1 2 3 500000000 0) "x.test")|].
    eapply rtc_l; [apply step_saveChan; reflexivity|].
    eapply rtc_l; [apply (step_saveTimer SaveOK); reflexivity|].
    eapply rtc_l; [apply step_Close; reflexivity|].
    eapply rtc_l; [apply (step_stopChan SaveOK); reflexivity|].
    apply rtc_refl. }
  split; [repeat split; first [exact Hr | reflexivity]|].
  split.
  - exact (saver_final_file _ (mkBlocklist ∅ true false) _ eq_refl Hr eq_refl eq_refl eq_refl).
  - vm_compute. reflexivity.
Defined.

(** X4: a host whose save signal is still in [saveChan] when [Close] is
    called can be lost: if the worker has not taken the signal and no save
    is pending, [Close] followed by the worker's exit is a possible run,
    and the hosts not yet in the file stay out of it. *)
Theorem saver_close_loses_queued (saved0 : gmap string Time) (b : Blocklist) (s : Saver)
    (h : string) :
  rtc saver_step (saver_start saved0 b) s ->
  sv_done s = false -> sv_stop s = false ->
  savePending (sv_b s) = true -> sv_pending s = false ->
  is_Some (hosts (sv_b s) !! h) -> sv_saved s !! h = None ->
  exists s', rtc saver_step s s' /\ sv_done s' = true /\
    sv_failed s' = sv_failed s /\ hosts (sv_b s') = hosts (sv_b s) /\
    sv_saved s' !! h = None.
Proof.
  intros _ Hd Hst Hch Hp _ Hn.
  exists (mkSaver (sv_b s) false false true true (sv_saved s) (sv_failed s)).
  split; [|repeat split; assumption].
  eapply rtc_l; [apply (step_Close s Hst)|].
  eapply rtc_l.
  - apply (step_stopChan SaveOK); [exact Hd|reflexivity].
  - cbn [sv_pending]. rewrite Hp. apply rtc_refl.
Qed.


Lemma saver_close_loses_queued_witness :
  let b := mkBlocklist ∅ true false in
  let s := mkSaver (AddHost Fixtures.toy_now "x.test" b) false false false false ∅ false in
  (rtc saver_step (saver_start ∅ b) s /\ sv_done s = false /\ sv_stop s = false /\
   savePending (sv_b s) = true /\ sv_pending s = false /\
   is_Some (hosts (sv_b s) !! "x.test") /\ sv_saved s !! "x.test" = None) /\
  exists s', rtc saver_step s s' /\ sv_done s' = true /\
    sv_failed s' = sv_failed s /\ hosts (sv_b s') = hosts (sv_b s) /\
    sv_saved s' !! "x.test" = None.
Proof.
  cbv zeta.
  assert (Hr : rtc saver_step (saver_start ∅ (mkBlocklist ∅ true false))
    (mkSaver (AddHost Fixtures.toy_now "x.test" (mkBlocklist ∅ true false))
       false false false false ∅ false)).
  { eapply rtc_l; [apply (step_AddHost Fixtures.toy_now "x.test")|]. apply rtc_refl. }
  assert (Hs : is_Some (hosts (AddHost Fixtures.toy_now "x.test" (mkBlocklist ∅ true false))
                 !! "x.test")).
  { eexists. reflexivity. }
  split; [repeat split; first [exact Hr | exact Hs | reflexivity]|].
  exact (saver_close_loses_queued _ _ _ "x.test" Hr eq_refl eq_refl eq_refl eq_refl Hs eq_refl).
Defined.

End BlocklistRunFacts.


(** ** [Writer.Close] *)

Module WriterCloseFacts.
Import Output WriterClose.

Lemma first_failure_app (io : IoOp -> option string) (l1 l2 : list IoOp) :
  first_failure io (app l1 l2) =
  match first_failure io l1 with Some e => Some e | None => first_failure io l2 end.
Proof.
  induction l1 as [|op l1 IH]; [reflexivity|]. cbn. destruct (io op); [reflexivity|exact IH].
Qed.

Lemma write_chunks_spec (io : IoOp -> option string) (cs : list Chunk) :
  (write_chunks io cs).2 `prefix_of` map WriteChunk cs /\
  (write_chunks io cs).1 = first_failure io (write_chunks io cs).2 /\
  ((write_chunks io cs).1 = None -> (write_chunks io cs).2 = map WriteChunk cs).
Proof.
  induction cs as [|c cs (IHp & IHe & IHn)]; cbn.
  - split; [reflexivity|]. split; reflexivity.
  - destruct (io (WriteChunk c)) as [e|] eqn:Hio.
    + cbn. split; [apply prefix_cons, prefix_nil|].
      rewrite Hio. split; [destruct c; reflexivity|discriminate].
    + destruct (write_chunks io cs) as [err ops]. cbn in *.
      split; [apply prefix_cons, IHp|]. rewrite Hio.
      split; [exact IHe|]. intros He. f_equal. exact (IHn He).
Qed.

(** X5: [Close] of an open writer flushes the raw and filtered buffers,
    writes the sorted binary findings (stopping at the first failing
    write), flushes the binary buffer and closes the three files, in this
    order, whatever fails; it returns the error of the first operation
    that failed, and when none failed the whole of
    [writeSortedBinaryFindings] was written.  A second [Close] performs no
    operation and returns nil. *)
Theorem Close_first_failure (io : IoOp -> option string)
    (binaryFindings : gmap string (list BinaryFinding)) :
  let '(err, ops, w') := Close io binaryFindings opened in
  (exists ws,
     ops = app [Flush RawOut; Flush FilteredOut]
             (app ws [Flush BinaryOut; CloseFile RawOut; CloseFile FilteredOut;
                      CloseFile BinaryOut]) /\
     ws `prefix_of` map WriteChunk (writeSortedBinaryFindings binaryFindings) /\
     (err = None -> ws = map WriteChunk (writeSortedBinaryFindings binaryFindings))) /\
  err = first_failure io ops /\
  Close io binaryFindings w' = (None, [], w').
Proof.
  pose proof (write_chunks_spec io (writeSortedBinaryFindings binaryFindings)) as (Hp & He & Hn).
  unfold Close. cbn [rawWriter filteredWriter binaryWriter rawFile filteredFile binaryFile opened].
  destruct (write_chunks io (writeSortedBinaryFindings binaryFindings)) as [serr wops].
  cbn [fst snd] in *.
  split; [|split; [|reflexivity]].
  - exists wops. split; [cbn; rewrite <- app_assoc; reflexivity|]. split; [exact Hp|].
    intros Herr. apply Hn.
    destruct (io (Flush RawOut)), (io (Flush FilteredOut)), serr; cbn in Herr;
      first [reflexivity | discriminate].
  - cbn [app first_failure first_error]. unfold reported.
    destruct (io (Flush RawOut)); [reflexivity|].
    destruct (io (Flush FilteredOut)); [reflexivity|].
    rewrite <- app_assoc, first_failure_app, <- He. destruct serr; [reflexivity|].
    cbn. destruct (io (Flush BinaryOut)); [reflexivity|].
    destruct (io (CloseFile RawOut)); [reflexivity|].
    destruct (io (CloseFile FilteredOut)); reflexivity.
Qed.

End WriterCloseFacts.


(** ** The two versions of the extension filter *)

Module FilterVersionsFacts.
Import GoStr.

(** X6: the map-based filter that replaced the slice-based one filters the
    same URLs: for every extension list and every URL, [ShouldFilter] of
    the slice built by the old [NewFilter] agrees with [ShouldFilter] of
    the map built by the new one. *)
Theorem ShouldFilter_slice_map (ToLower : string -> string) (exts : list string)
    (fileURL : string) :
  FilterSlice.ShouldFilter ToLower (FilterSlice.NewFilter exts) fileURL =
  Filter.ShouldFilter ToLower (Filter.NewFilter ToLower exts) fileURL.
Proof.
  unfold FilterSlice.ShouldFilter, Filter.ShouldFilter.
  rewrite FilterFacts.NewFilter_lookup.
  destruct exts as [|e exts].
  - reflexivity.
  - assert (Hsz : Nat.eqb (size (Filter.NewFilter ToLower (e :: exts))) 0 = false).
    { apply Nat.eqb_neq. intros Hs. apply map_size_empty_iff in Hs.
      pose proof (FilterFacts.NewFilter_lookup ToLower (e :: exts) (Filter.normalize ToLower e)) as Hl.
      rewrite Hs, lookup_empty in Hl.
      destruct (decide _) as [_|Hn]; [discriminate|]. apply Hn. left. }
    rewrite Hsz. cbn [length Nat.eqb FilterSlice.NewFilter map].
    set (x := ToLower (Ext fileURL)).
    assert (Hex : forall l, existsb (fun filterExt => String.eqb (ToLower filterExt) x)
                    (map (fun ext => if HasPrefix ext "." then ext else "." ++ ext) l) =
                  bool_decide (x ∈ map (Filter.normalize ToLower) l)).
    { induction l as [|a l IH]; [reflexivity|]. cbn [map existsb].
      rewrite IH. unfold Filter.normalize.
      destruct (String.eqb_spec (ToLower (if HasPrefix a "." then a else "." ++ a)) x) as [Heq|Hne].
      - cbn [orb]. symmetry. apply bool_decide_true. cbn [map]. rewrite Heq. left.
      - cbn [orb]. apply bool_decide_ext. rewrite elem_of_cons.
        split; [intros H; right; exact H|]. intros [H|H]; [congruence|exact H]. }
    pose proof (Hex (e :: exts)) as He. cbn [map] in He. rewrite He.
    destruct (decide _); [rewrite bool_decide_true by assumption; reflexivity|].
    rewrite bool_decide_false by assumption. reflexivity.
Qed.

(** X7: [GetFilterExtensions] of the map-based filter lists every normalised
    extension exactly once (duplicates of the input collapse), and
    nothing else. *)
Theorem GetFilterExtensions_keys (ToLower : string -> string) (exts : list string) :
  NoDup (FilterKeys.GetFilterExtensions (Filter.NewFilter ToLower exts)) /\
  (forall x, x ∈ FilterKeys.GetFilterExtensions (Filter.NewFilter ToLower exts) <->
             exists e, e ∈ exts /\ Filter.normalize ToLower e = x).
Proof.
  unfold FilterKeys.GetFilterExtensions. split; [apply NoDup_fst_map_to_list|].
  intros x. rewrite list_elem_of_In, in_map_iff. split.
  - intros ([k v] & <- & Hin). apply list_elem_of_In, elem_of_map_to_list in Hin.
    rewrite FilterFacts.NewFilter_lookup in Hin.
    destruct (decide _) as [Hk|]; [|discriminate].
    apply list_elem_of_In, in_map_iff in Hk as (e & <- & He).
    exists e. split; [apply list_elem_of_In; exact He|reflexivity].
  - intros (e & He & <-). exists (Filter.normalize ToLower e, true). split; [reflexivity|].
    apply list_elem_of_In, elem_of_map_to_list. rewrite FilterFacts.NewFilter_lookup.
    rewrite decide_True; [reflexivity|]. apply list_elem_of_In, in_map_iff.
    exists e. split; [reflexivity|]. apply list_elem_of_In; exact He.
Qed.

End FilterVersionsFacts.


(** ** [CheckFileURL] *)

Module CheckFileURLFacts.
Import FileChecker.

(** X8: [CheckFileURL] reports [found = true] exactly when it returns a nil
    error, and that happens exactly when checking is enabled and the HEAD
    request gets status 200 with a binary [Content-Type], which is then
    the content type returned.  It sends at most one request, to the URL
    itself, and none when checking is disabled. *)
Theorem CheckFileURL_found_iff (http : string -> HttpOutcome) (checkEnabled : bool)
    (fileURL : string) :
  let '((found, contentType, err), reqs) := CheckFileURL http checkEnabled fileURL in
  (found = true <-> err = None) /\
  (found = true <->
   checkEnabled = true /\ http fileURL = Response 200 contentType /\
   isBinaryContent contentType = true) /\
  (reqs = [] \/ reqs = [fileURL]) /\
  (checkEnabled = false -> reqs = []).
Proof.
  unfold CheckFileURL. destruct checkEnabled; cbn [negb].
  - destruct (http fileURL) as [| |status ct] eqn:Hh.
    + split; [split; discriminate|]. split; [split; [discriminate|intros (_ & H & _); discriminate]|].
      split; [left; reflexivity|discriminate].
    + split; [split; discriminate|]. split; [split; [discriminate|intros (_ & H & _); discriminate]|].
      split; [right; reflexivity|discriminate].
    + destruct (Z.eqb_spec status 200) as [->|Hs]; cbn [negb].
      * destruct (isBinaryContent ct) eqn:Hb.
        -- split; [split; reflexivity|]. split; [split; [auto|reflexivity]|].
           split; [right; reflexivity|discriminate].
        -- split; [split; discriminate|].
           split; [split; [discriminate|intros (_ & _ & H); congruence]|].
           split; [right; reflexivity|discriminate].
      * split; [split; discriminate|].
        split; [split; [discriminate|intros (_ & H & _); congruence]|].
        split; [right; reflexivity|discriminate].
  - split; [split; discriminate|]. split; [split; [discriminate|intros (H & _); discriminate]|].
    split; [left; reflexivity|reflexivity].
Qed.

End CheckFileURLFacts.


(** ** Repeated binary findings *)

Module BinaryWriteFacts.
Import GoStr GoURL Output.

Lemma WriteBinaryOutput_extends (url_parse : string -> option GoURL.URL) (line : string)
    (m : gmap string (list BinaryFinding)) (k : string) (l : list BinaryFinding) :
  m !! k = Some l ->
  exists l', snd (WriteBinaryOutput url_parse line m) !! k = Some (app l l').
Proof.
  intros Hk. unfold WriteBinaryOutput.
  destruct (Split line binary_sep) as [|p0 [|p1 [|p2 rest]]]; cbn [snd];
    try (exists []; rewrite app_nil_r; exact Hk).
  destruct (url_parse (TrimSpace p0)) as [u|]; cbn [snd]; [|exists []; rewrite app_nil_r; exact Hk].
  destruct (existsb _ _); cbn [snd]; [exists []; rewrite app_nil_r; exact Hk|].
  destruct (String.eqb_spec (Scheme u ++ "://" ++ Host u) k) as [<-|Hne].
  - rewrite lookup_insert_eq, Hk. eexists. reflexivity.
  - rewrite lookup_insert_ne by exact Hne. exists []. rewrite app_nil_r. exact Hk.
Qed.

(** X9: writing a binary finding is idempotent: a second [WriteBinaryOutput]
    of the same line returns the same error as the first and leaves the
    findings as the first left them.  Over any sequence of writes, the
    findings recorded for a host are never removed or reordered: each
    host's list only grows at its end. *)
Theorem WriteBinaryOutput_idempotent_append (url_parse : string -> option GoURL.URL) :
  (forall line m,
     WriteBinaryOutput url_parse line (snd (WriteBinaryOutput url_parse line m)) =
     (fst (WriteBinaryOutput url_parse line m), snd (WriteBinaryOutput url_parse line m))) /\
  (forall lines m k l, m !! k = Some l ->
     exists l', write_lines url_parse lines m !! k = Some (app l l')).
Proof.
  split.
  - intros line m. unfold WriteBinaryOutput.
    destruct (Split line binary_sep) as [|p0 [|p1 [|p2 rest]]]; cbn [fst snd]; try reflexivity.
    destruct (url_parse (TrimSpace p0)) as [u|] eqn:Hu; cbn [fst snd]; [|reflexivity].
    destruct (existsb (fun f => String.eqb (URL f) (TrimSpace p0))
                (default [] (m !! (Scheme u ++ "://" ++ Host u)))) eqn:He; cbn [fst snd].
    + rewrite He. reflexivity.
    + rewrite lookup_insert_eq. cbn [default]. unfold id.
      match goal with |- context [existsb ?g (app ?l [?f])] =>
        assert (Ht : existsb g (app l [f]) = true) end.
      { apply existsb_exists. exists (mkFinding (TrimSpace p0) (TrimSpace p1)).
        split; [apply in_or_app; right; left; reflexivity|apply String.eqb_refl]. }
      rewrite Ht. reflexivity.
  - induction lines as [|line lines IH]; intros m k l Hk.
    + exists []. rewrite app_nil_r. exact Hk.
    + cbn. destruct (WriteBinaryOutput_extends url_parse line m k l Hk) as [l1 H1].
      destruct (IH _ _ _ H1) as [l2 H2]. exists (app l1 l2). rewrite app_assoc. exact H2.
Qed.

End BinaryWriteFacts.


(** ** The worker's statistics *)

Module WorkerStatsFacts.
Import GoStr GoURL Env Config Scanner Output FileChecker Worker.

Lemma diff_in (u : string) (X F : gset string) :
  u ∈ F -> ({[u]} ∪ X) ∖ F = X ∖ F.
Proof. intros Hu. set_solver. Qed.

Lemma diff_notin (u : string) (X F : gset string) :
  u ∉ F -> size (({[u]} ∪ X) ∖ F) = S (size (X ∖ ({[u]} ∪ F))).
Proof.
  intros Hu.
  assert (Heq : ({[u]} ∪ X) ∖ F = {[u]} ∪ X ∖ ({[u]} ∪ F)).
  { apply set_eq. intros x.
    rewrite elem_of_difference, !elem_of_union, elem_of_difference, !elem_of_union,
      !elem_of_singleton.
    destruct (decide (x = u)); [subst; tauto|tauto]. }
  rewrite Heq, size_union by set_solver. rewrite size_singleton. reflexivity.
Qed.

Lemma diff_notin_skip (u : string) (X F : gset string) :
  u ∉ X -> X ∖ ({[u]} ∪ F) = X ∖ F.
Proof. intros Hu. set_solver. Qed.

Lemma filter_true (f : string -> bool) (l : list string) (x : string) :
  x ∈ (list_to_set (List.filter f l) : gset string) -> f x = true.
Proof.
  intros Hx. apply elem_of_list_to_set, list_elem_of_In, filter_In in Hx. apply Hx.
Qed.

Section Stats.
Variable E : Env.
Variable wc : WorkerConfig.

(** The counters other than [writeErrors] are untouched, [writeErrors]
    does not decrease. *)
Definition same_counts (s s' : Stats) : Prop :=
  onlineHosts s' = onlineHosts s /\ totalFiles s' = totalFiles s /\
  filteredFiles s' = filteredFiles s /\ checkedFiles s' = checkedFiles s /\
  binaryFilesFound s' = binaryFilesFound s /\ writeErrors s <= writeErrors s'.

Lemma write_raw_counts (line : string) (w : Worker) :
  same_counts (stats w) (stats (write_raw E line w)).
Proof.
  unfold write_raw. destruct (rawWriteFails _ _ _); cbn; repeat split; cbn; lia.
Qed.

Lemma write_filtered_counts (line : string) (w : Worker) :
  same_counts (stats w) (stats (write_filtered E line w)).
Proof.
  unfold write_filtered. destruct (filteredWriteFails _ _ _); cbn; repeat split; cbn; lia.
Qed.

Lemma write_raw_onlineHosts (line : string) (w : Worker) :
  onlineHosts (stats (write_raw E line w)) = onlineHosts (stats w).
Proof. unfold write_raw. destruct (rawWriteFails _ _ _); reflexivity. Qed.
Lemma write_raw_totalFiles (line : string) (w : Worker) :
  totalFiles (stats (write_raw E line w)) = totalFiles (stats w).
Proof. unfold write_raw. destruct (rawWriteFails _ _ _); reflexivity. Qed.
Lemma write_raw_filteredFiles (line : string) (w : Worker) :
  filteredFiles (stats (write_raw E line w)) = filteredFiles (stats w).
Proof. unfold write_raw. destruct (rawWriteFails _ _ _); reflexivity. Qed.
Lemma write_raw_checkedFiles (line : string) (w : Worker) :
  checkedFiles (stats (write_raw E line w)) = checkedFiles (stats w).
Proof. unfold write_raw. destruct (rawWriteFails _ _ _); reflexivity. Qed.
Lemma write_raw_binaryFilesFound (line : string) (w : Worker) :
  binaryFilesFound (stats (write_raw E line w)) = binaryFilesFound (stats w).
Proof. unfold write_raw. destruct (rawWriteFails _ _ _); reflexivity. Qed.
Lemma write_filtered_onlineHosts (line : string) (w : Worker) :
  onlineHosts (stats (write_filtered E line w)) = onlineHosts (stats w).
Proof. unfold write_filtered. destruct (filteredWriteFails _ _ _); reflexivity. Qed.
Lemma write_filtered_totalFiles (line : string) (w : Worker) :
  totalFiles (stats (write_filtered E line w)) = totalFiles (stats w).
Proof. unfold write_filtered. destruct (filteredWriteFails _ _ _); reflexivity. Qed.
Lemma write_filtered_filteredFiles (line : string) (w : Worker) :
  filteredFiles (stats (write_filtered E line w)) = filteredFiles (stats w).
Proof. unfold write_filtered. destruct (filteredWriteFails _ _ _); reflexivity. Qed.
Lemma write_filtered_checkedFiles (line : string) (w : Worker) :
  checkedFiles (stats (write_filtered E line w)) = checkedFiles (stats w).
Proof. unfold write_filtered. destruct (filteredWriteFails _ _ _); reflexivity. Qed.
Lemma write_filtered_binaryFilesFound (line : string) (w : Worker) :
  binaryFilesFound (stats (write_filtered E line w)) = binaryFilesFound (stats w).
Proof. unfold write_filtered. destruct (filteredWriteFails _ _ _); reflexivity. Qed.

Lemma write_raw_writeErrors (line : string) (w : Worker) :
  writeErrors (stats w) <= writeErrors (stats (write_raw E line w)).
Proof. apply write_raw_counts. Qed.

Lemma write_filtered_writeErrors (line : string) (w : Worker) :
  writeErrors (stats w) <= writeErrors (stats (write_filtered E line w)).
Proof. apply write_filtered_counts. Qed.

(** The [writeErrors] bounds of the writes occurring in the goal. *)
Ltac pose_writes :=
  repeat match goal with
    | |- context [stats (write_raw E ?l ?w0)] =>
        lazymatch goal with
        | _ : writeErrors (stats w0) <= writeErrors (stats (write_raw E l w0)) |- _ => fail
        | _ => pose proof (write_raw_writeErrors l w0)
        end
    | |- context [stats (write_filtered E ?l ?w0)] =>
        lazymatch goal with
        | _ : writeErrors (stats w0) <= writeErrors (stats (write_filtered E l w0)) |- _ => fail
        | _ => pose proof (write_filtered_writeErrors l w0)
        end
    end.

Ltac simpl_counts :=
  repeat first
    [ progress cbn [stats set_stats set_sink add_call inc_online inc_total inc_filtered
                    inc_checked inc_binary inc_writeErrors onlineHosts totalFiles
                    filteredFiles checkedFiles binaryFilesFound writeErrors] in *
    | rewrite write_raw_onlineHosts in * | rewrite write_raw_totalFiles in *
    | rewrite write_raw_filteredFiles in * | rewrite write_raw_checkedFiles in *
    | rewrite write_raw_binaryFilesFound in *
    | rewrite write_filtered_onlineHosts in * | rewrite write_filtered_totalFiles in *
    | rewrite write_filtered_filteredFiles in * | rewrite write_filtered_checkedFiles in *
    | rewrite write_filtered_binaryFilesFound in * ].

Lemma write_binary_counts (line : string) (w : Worker) :
  same_counts (stats w) (stats (write_binary E line w)).
Proof.
  unfold write_binary. destruct (WriteBinaryOutput _ _ _) as [[e|] bf];
    cbn; repeat split; cbn; lia.
Qed.

Lemma checkFileContent_counts (fileURL : string) (w : Worker) :
  onlineHosts (stats (checkFileContent E wc fileURL w)) = onlineHosts (stats w) /\
  totalFiles (stats (checkFileContent E wc fileURL w)) = totalFiles (stats w) /\
  filteredFiles (stats (checkFileContent E wc fileURL w)) = filteredFiles (stats w) /\
  checkedFiles (stats (checkFileContent E wc fileURL w)) = S (checkedFiles (stats w)) /\
  binaryFilesFound (stats w) <= binaryFilesFound (stats (checkFileContent E wc fileURL w))
    <= S (binaryFilesFound (stats w)) /\
  writeErrors (stats w) <= writeErrors (stats (checkFileContent E wc fileURL w)).
Proof.
  unfold checkFileContent.
  destruct (CheckFileURL (http E) (checkEnabled wc) fileURL) as [[[found ct] err] reqs].
  destruct err as [e|]; [cbn; repeat split; lia|].
  destruct found; [|cbn; repeat split; lia].
  match goal with |- context [write_binary E ?l ?w0] =>
    pose proof (write_binary_counts l w0) as (H1 & H2 & H3 & H4 & H5 & H6) end.
  match goal with |- context [write_raw E ?l ?w0] =>
    pose proof (write_raw_counts l w0) as (G1 & G2 & G3 & G4 & G5 & G6) end.
  cbn in *. repeat split; lia.
Qed.


Definition filtered_url (u : string) : bool :=
  Filter.ShouldFilter (ToLower E) (extensionMap wc) u.

Lemma processFoundFile_fold_counts (l : list string) (F : gset string) (w : Worker) :
  (fold_left (processFoundFile E wc) l (F, w)).1 = list_to_set l ∪ F /\
  totalFiles (stats (fold_left (processFoundFile E wc) l (F, w)).2) =
    totalFiles (stats w) + size (list_to_set l ∖ F) /\
  filteredFiles (stats (fold_left (processFoundFile E wc) l (F, w)).2) =
    filteredFiles (stats w) + size (list_to_set (List.filter filtered_url l) ∖ F).
Proof.
  revert F w. induction l as [|u l IH]; intros F w.
  - cbn [fold_left list_to_set List.filter fst snd].
    assert (Hz : ∅ ∖ F = (∅ : gset string)) by set_solver.
    rewrite Hz, size_empty. split; [set_solver|lia].
  - cbn [fold_left].
    destruct (processFoundFile E wc (F, w) u) as [F1 w1] eqn:Hp.
    unfold processFoundFile in Hp.
    destruct (bool_decide_reflect (u ∈ F)) as [Hin|Hnin].
    + injection Hp as <- <-.
      destruct (IH F w) as (H1 & H2 & H3). rewrite H1, H2, H3.
      cbn [list_to_set List.filter]. rewrite diff_in by exact Hin.
      split; [set_solver|]. split; [reflexivity|].
      destruct (filtered_url u); cbn [list_to_set];
        [rewrite diff_in by exact Hin|]; reflexivity.
    + cbn [list_to_set List.filter]. rewrite diff_notin by exact Hnin.
      destruct (filtered_url u) eqn:Hf; unfold filtered_url in Hf; rewrite Hf in Hp.
      * cbn [list_to_set]. rewrite diff_notin by exact Hnin.
        destruct (checkEnabled wc && hasFileChecker wc && ShouldCheck wc u);
          injection Hp as <- Hw;
          destruct (IH ({[u]} ∪ F) w1) as (H1 & H2 & H3); rewrite H1, H2, H3;
          (split; [set_solver|]).
        -- match type of Hw with checkFileContent E wc u ?w0 = _ =>
             pose proof (checkFileContent_counts u w0) as (_ & Ht & Hfl & _) end.
           rewrite <- Hw, Ht, Hfl. simpl_counts. lia.
        -- rewrite <- Hw. simpl_counts. lia.
      * injection Hp as <- Hw.
        destruct (IH ({[u]} ∪ F) w1) as (H1 & H2 & H3).
        rewrite H1, H2, H3, <- Hw.
        rewrite (diff_notin_skip u (list_to_set (List.filter filtered_url l)) F).
        2:{ intros Hu. apply filter_true in Hu. unfold filtered_url in Hu. congruence. }
        split; [set_solver|]. simpl_counts. lia.
Qed.


(** How the counters of a worker may move during a piece of its work:
    none decreases, at most one filtered file per counted file, at most
    one binary file per checked file, and at most one check per filtered
    file or newly online host. *)
Definition stats_grow (s s' : Stats) : Prop :=
  exists dO dT dF dC dB,
    onlineHosts s' = onlineHosts s + dO /\ totalFiles s' = totalFiles s + dT /\
    filteredFiles s' = filteredFiles s + dF /\ checkedFiles s' = checkedFiles s + dC /\
    binaryFilesFound s' = binaryFilesFound s + dB /\ writeErrors s <= writeErrors s' /\
    dF <= dT /\ dB <= dC /\ dC <= dF + dO.

Lemma stats_grow_refl (s : Stats) : stats_grow s s.
Proof. exists 0, 0, 0, 0, 0. repeat split; lia. Qed.

Lemma stats_grow_trans (s1 s2 s3 : Stats) :
  stats_grow s1 s2 -> stats_grow s2 s3 -> stats_grow s1 s3.
Proof.
  intros (a1 & b1 & c1 & d1 & e1 & H1 & H2 & H3 & H4 & H5 & H6 & H7 & H8 & H9)
         (a2 & b2 & c2 & d2 & e2 & K1 & K2 & K3 & K4 & K5 & K6 & K7 & K8 & K9).
  exists (a1 + a2), (b1 + b2), (c1 + c2), (d1 + d2), (e1 + e2).
  repeat split; lia.
Qed.

Lemma stats_grow_eq (w w' : Worker) : stats w' = stats w -> stats_grow (stats w) (stats w').
Proof. intros ->. apply stats_grow_refl. Qed.

Lemma processFoundFile_grow (F : gset string) (w : Worker) (u : string) :
  stats_grow (stats w) (stats (processFoundFile E wc (F, w) u).2) /\
  onlineHosts (stats (processFoundFile E wc (F, w) u).2) = onlineHosts (stats w).
Proof.
  unfold processFoundFile.
  destruct (bool_decide (u ∈ F)); [split; [apply stats_grow_refl|reflexivity]|].
  destruct (Filter.ShouldFilter (ToLower E) (extensionMap wc) u);
    [|cbn [snd]; split; [exists 0, 1, 0, 0, 0; pose_writes; simpl_counts; repeat split; lia
                         |simpl_counts; reflexivity]].
  destruct (checkEnabled wc && hasFileChecker wc && ShouldCheck wc u);
    [|cbn [snd]; split; [exists 0, 1, 1, 0, 0; pose_writes; simpl_counts; repeat split; lia
                         |simpl_counts; reflexivity]].
  cbn [snd].
  match goal with |- context [checkFileContent E wc u ?w0] =>
    pose proof (checkFileContent_counts u w0) as (H1 & H2 & H3 & H4 & H5 & H6);
    split; [exists 0, 1, 1, 1, (binaryFilesFound (stats (checkFileContent E wc u w0)) -
                                binaryFilesFound (stats w))|] end;
    rewrite ?H1, ?H2, ?H3, ?H4; pose_writes; simpl_counts;
    repeat split; lia.
Qed.

Lemma fold_processFoundFile_grow (l : list string) (F : gset string) (w : Worker) :
  stats_grow (stats w) (stats (fold_left (processFoundFile E wc) l (F, w)).2) /\
  onlineHosts (stats (fold_left (processFoundFile E wc) l (F, w)).2) = onlineHosts (stats w).
Proof.
  revert F w. induction l as [|u l IH]; intros F w; [split; [apply stats_grow_refl|reflexivity]|].
  cbn [fold_left]. destruct (processFoundFile E wc (F, w) u) as [F1 w1] eqn:Hp.
  pose proof (processFoundFile_grow F w u) as [Hg Ho]. rewrite Hp in Hg, Ho. cbn [snd] in Hg, Ho.
  destruct (IH F1 w1) as [Hg' Ho']. split; [|congruence].
  exact (stats_grow_trans _ _ _ Hg Hg').
Qed.

Lemma fold_add_call_stats (l : list string) (w : Worker) :
  stats (fold_left (fun w u => add_call (CallFetch u) w) l w) = stats w.
Proof. revert w. induction l as [|u l IH]; intros w; [reflexivity|]. cbn. rewrite IH. reflexivity. Qed.

Lemma fold_skipCallback_stats (o : string) (l : list string) (w : Worker) :
  stats (fold_left (skipCallback E wc o) l w) = stats w.
Proof.
  revert w. induction l as [|u l IH]; intros w; [reflexivity|]. cbn. rewrite IH.
  unfold skipCallback. destruct (_ && _); reflexivity.
Qed.

Lemma processDirectoryContent_grow (hostURL htmlContent : string) (w : Worker) :
  stats_grow (stats w) (stats (processDirectoryContent E wc hostURL htmlContent w)) /\
  onlineHosts (stats (processDirectoryContent E wc hostURL htmlContent w)) = onlineHosts (stats w).
Proof.
  unfold processDirectoryContent.
  destruct (Blocklist.IsBlocked _ _); [split; [apply stats_grow_refl|reflexivity]|].
  destruct (bool_decide _); [split; [apply stats_grow_refl|reflexivity]|].
  destruct (negb _); [split; [apply stats_grow_refl|reflexivity]|].
  destruct (_ && _).
  - match goal with |- context [fold_left (processFoundFile E wc) ?l (∅, ?w1)] =>
      assert (Hs : stats w1 = stats w);
      [|destruct (fold_processFoundFile_grow l ∅ w1) as [Hg Ho]; rewrite Hs in Hg, Ho;
        exact (conj Hg Ho)] end.
    rewrite fold_skipCallback_stats. cbn. rewrite fold_add_call_stats. reflexivity.
  - exact (fold_processFoundFile_grow _ ∅ (add_call (CallScanHost hostURL) w)).
Qed.

(** X10: [processFoundFile], run by [processDirectoryContent] over the URLs
    the scanner returned with a fresh [foundUrls] map, counts every
    distinct URL once in [totalFiles], however often the scanner returned
    it, and every distinct URL the extension filter matches once in
    [filteredFiles]. *)
Theorem processFoundFile_distinct (fileURLs : list string) (w : Worker) :
  totalFiles (stats (fold_left (processFoundFile E wc) fileURLs (∅, w)).2) =
    totalFiles (stats w) + size (list_to_set fileURLs : gset string) /\
  filteredFiles (stats (fold_left (processFoundFile E wc) fileURLs (∅, w)).2) =
    filteredFiles (stats w) +
    size (list_to_set (List.filter (Filter.ShouldFilter (ToLower E) (extensionMap wc))
                         fileURLs) : gset string).
Proof.
  destruct (processFoundFile_fold_counts fileURLs ∅ w) as (_ & Ht & Hf).
  rewrite Ht, Hf. rewrite !difference_empty_L. split; reflexivity.
Qed.

(** X11: the statistics a worker keeps stay consistent over the processing of
    a host by [processHost]: no counter decreases, [onlineHosts] grows by
    at most one, the host adds at most one filtered file per file it
    counts, at most one binary file per file it checks, and at most one
    check per filtered file, plus one for the targeted check of the
    host when it came online. *)
Theorem processHost_stats (hostURL : string) (w : Worker) :
  onlineHosts (stats (processHost E wc hostURL w)) <= S (onlineHosts (stats w)) /\
  stats_grow (stats w) (stats (processHost E wc hostURL w)).
Proof.
  unfold processHost.
  destruct (Blocklist.IsBlocked _ _); [split; [lia|apply stats_grow_refl]|].
  destruct (bool_decide (extractBaseHost E hostURL ∈ _)); [split; [lia|apply stats_grow_refl]|].
  destruct (bool_decide (hostURL ∈ _)); [split; [lia|apply stats_grow_refl]|].
  destruct (f_err (fetch E hostURL)); [split; [cbn; lia|apply stats_grow_refl]|].
  destruct (negb (f_online (fetch E hostURL))); [split; [cbn; lia|apply stats_grow_refl]|].
  set (w1 := write_raw E hostURL (set_stats (inc_online (stats (add_call (CallFetch hostURL) w)))
                                    (add_call (CallFetch hostURL) w))).
  assert (G : onlineHosts (stats w1) = S (onlineHosts (stats w)) /\
              totalFiles (stats w1) = totalFiles (stats w) /\
              filteredFiles (stats w1) = filteredFiles (stats w) /\
              checkedFiles (stats w1) = checkedFiles (stats w) /\
              binaryFilesFound (stats w1) = binaryFilesFound (stats w) /\
              writeErrors (stats w) <= writeErrors (stats w1)).
  { unfold w1. pose_writes. simpl_counts. repeat split; lia. }
  clearbody w1. destruct G as (G1 & G2 & G3 & G4 & G5 & G6).
  destruct (checkEnabled wc && hasFileChecker wc && negb (String.eqb (targetFileName wc) ""))
    eqn:Ht; cbn [negb orb].
  - destruct (CheckSpecificFile (http E) (checkEnabled wc) hostURL (targetFileName wc))
      as [[[found ct] err] reqs].
    destruct err as [e|]; [|destruct found].
    + destruct (processDirectoryContent_grow hostURL (f_body (fetch E hostURL))
                  (add_call (CallCheckSpecificFile hostURL (targetFileName wc)) w1)) as [Hg Ho].
      cbn [negb orb]. rewrite Ho. cbn [stats add_call] in *.
      split; [lia|]. refine (stats_grow_trans _ _ _ _ Hg).
      exists 1, 0, 0, 0, 0. repeat split; lia.
    + cbn [negb orb].
      match goal with |- context [write_binary E ?l ?w0] =>
        pose proof (write_binary_counts l w0) as (K1 & K2 & K3 & K4 & K5 & K6) end.
      match goal with |- context [write_raw E ?l ?w0] =>
        pose proof (write_raw_counts l w0) as (L1 & L2 & L3 & L4 & L5 & L6) end.
      cbn [stats add_call set_stats inc_binary inc_checked onlineHosts totalFiles
           filteredFiles checkedFiles binaryFilesFound writeErrors] in *.
      split; [lia|].
      exists 1, 0, 0, 1, 1. cbn. repeat split; lia.
    + destruct (processDirectoryContent_grow hostURL (f_body (fetch E hostURL))
                  (add_call (CallCheckSpecificFile hostURL (targetFileName wc)) w1)) as [Hg Ho].
      cbn [negb orb]. rewrite Ho. cbn [stats add_call] in *.
      split; [lia|]. refine (stats_grow_trans _ _ _ _ Hg).
      exists 1, 0, 0, 0, 0. repeat split; lia.
  - destruct (processDirectoryContent_grow hostURL (f_body (fetch E hostURL)) w1) as [Hg Ho].
    rewrite Ho. split; [lia|]. refine (stats_grow_trans _ _ _ _ Hg).
    exists 1, 0, 0, 0, 0. repeat split; lia.
Qed.

End Stats.
End WorkerStatsFacts.


(** ** The shape of a walk under any schedule *)

Module WalkShapeFacts.
Import GoStr Env Config Scanner Fixtures.

Section Shape.
Variable E : Env.
Variable cfg : Config.

(** What a walk keeps under any schedule of the other workers: each
    directory adds to the counter at most once, and only once visited;
    each addition is bounded by a positive [maxLinksPerDirectory]; the
    file URLs collected are those added. *)
Definition walk_shape (w : Walk) : Prop :=
  NoDup (map fst (w_adds w)) /\
  (forall u, u ∈ map fst (w_adds w) -> u ∈ w_visited w) /\
  Forall (fun a => (0 < MaxLinksPerDirectory cfg)%Z ->
                   (Z.of_nat (snd a) <= MaxLinksPerDirectory cfg)%Z) (w_adds w) /\
  length (w_allLinks w) = list_sum (map snd (w_adds w)).

Lemma interfere_shape (w : Walk) : walk_shape w -> walk_shape (interfere w).
Proof. unfold interfere. destruct (w_sched w); intros H; exact H. Qed.

Lemma fold_shape {A} (f : Walk -> A -> Walk) (l : list A) (w : Walk) :
  (forall w x, walk_shape w -> walk_shape (f w x)) ->
  walk_shape w -> walk_shape (fold_left f l w).
Proof.
  intros Hf. revert w. induction l as [|x l IH]; intros w Hw; [exact Hw|].
  cbn. apply IH. apply Hf. exact Hw.
Qed.

Lemma truncated_length (links : list string) :
  (0 < MaxLinksPerDirectory cfg)%Z ->
  (Z.of_nat (length (if (0 <? MaxLinksPerDirectory cfg)%Z &&
                        (MaxLinksPerDirectory cfg <? Z.of_nat (length links))%Z
                     then firstn (Z.to_nat (MaxLinksPerDirectory cfg)) links else links))
   <= MaxLinksPerDirectory cfg)%Z.
Proof.
  intros Hm. destruct (Z.ltb_spec 0 (MaxLinksPerDirectory cfg)) as [_|]; [|lia].
  destruct (Z.ltb_spec (MaxLinksPerDirectory cfg) (Z.of_nat (length links))); cbn [andb].
  - rewrite length_firstn. lia.
  - lia.
Qed.

Lemma interfere_fields (w : Walk) :
  w_visited (interfere w) = w_visited w /\ w_allLinks (interfere w) = w_allLinks w /\
  w_adds (interfere w) = w_adds w.
Proof. unfold interfere. destruct (w_sched w); repeat split. Qed.

Lemma add_files_shape (u : string) (files : list string) (w : Walk) :
  walk_shape w -> u ∉ w_visited w ->
  ((0 < MaxLinksPerDirectory cfg)%Z -> (Z.of_nat (length files) <= MaxLinksPerDirectory cfg)%Z) ->
  walk_shape (add_count u (length files) (interfere (append_links files (add_visited u w)))).
Proof.
  intros (Hnd & Hvis & Hm & Hl) Hu Hb.
  destruct (interfere_fields (append_links files (add_visited u w))) as (Hv & Ha & Hd).
  unfold walk_shape, add_count; cbn [w_adds w_visited w_allLinks].
  rewrite Hv, Ha, Hd. unfold append_links, add_visited; cbn [w_adds w_visited w_allLinks].
  rewrite !map_app, list_sum_app. cbn [map fst snd list_sum].
  split; [|split; [|split]].
  - apply NoDup_app. split; [exact Hnd|]. split; [|apply NoDup_singleton].
    intros x Hx Hx'. apply list_elem_of_singleton in Hx'. subst x. exact (Hu (Hvis u Hx)).
  - intros x Hx. apply elem_of_union. apply elem_of_app in Hx as [Hx|Hx].
    + right. exact (Hvis x Hx).
    + left. apply list_elem_of_singleton in Hx. subst x. apply elem_of_singleton. reflexivity.
  - apply Forall_app. split; [exact Hm|]. constructor; [exact Hb|constructor].
  - rewrite length_app, Hl. cbn [list_sum foldr]. lia.
Qed.

Lemma add_fetch_shape (u : string) (w : Walk) : walk_shape w -> walk_shape (add_fetch u w).
Proof. intros H. exact H. Qed.

Lemma add_skip_shape (u : string) (w : Walk) : walk_shape w -> walk_shape (add_skip u w).
Proof. intros H. exact H. Qed.

Lemma files_length (links : list string) :
  (0 < MaxLinksPerDirectory cfg)%Z ->
  (Z.of_nat (length (List.filter (fun l => negb (isDirectory l))
     (if (0 <? MaxLinksPerDirectory cfg)%Z &&
         (MaxLinksPerDirectory cfg <? Z.of_nat (length links))%Z
      then firstn (Z.to_nat (MaxLinksPerDirectory cfg)) links else links)))
   <= MaxLinksPerDirectory cfg)%Z.
Proof.
  intros Hm. pose proof (truncated_length links Hm) as H.
  match goal with |- context [List.filter ?f ?l] =>
    pose proof (filter_length_le f l) as H' end. lia.
Qed.

Lemma scanRecursive_shape (fuel : nat) :
  forall baseURL htmlContent currentDepth maxDepth w,
    walk_shape w ->
    walk_shape (scanRecursive E fuel cfg baseURL htmlContent currentDepth maxDepth w).
Proof.
  induction fuel as [|f IH]; intros baseURL htmlContent currentDepth maxDepth w Hw;
    cbn [scanRecursive]; apply interfere_shape in Hw;
    (destruct ((0 <? MaxTotalLinks cfg)%Z && (MaxTotalLinks cfg <? w_count (interfere w))%Z);
      [apply add_skip_shape; exact Hw|]);
    (destruct (bool_decide_reflect (baseURL ∈ w_visited (interfere w))) as [|Hnv];
      [exact Hw|]); cbn [orb];
    (destruct (maxDepth <=? currentDepth)%Z; [exact Hw|]);
    match goal with
    | |- walk_shape (if ?c then fold_left _ _ ?w0 else ?w0) =>
        assert (Hw0 : walk_shape w0)
          by (apply add_files_shape; [exact Hw|exact Hnv|apply files_length]);
        destruct c; [|exact Hw0]
    end;
    (apply fold_shape; [|exact Hw0]); intros w1 d Hw1; cbv beta;
    (destruct (f_err _ || negb (f_online _)); [apply add_fetch_shape; exact Hw1|]);
    (destruct (IsDirectoryListing _ _); [|apply add_fetch_shape; exact Hw1]);
    [apply add_fetch_shape; exact Hw1 | apply IH, add_fetch_shape; exact Hw1].
Qed.

End Shape.

(** X12: whatever the other workers do to the shared counter, a recursive walk
    ([maxDepth > 0]) adds the files of each directory at most once (the
    [visited] map keeps a directory linked twice from being listed
    twice), each directory contributes at most [maxLinksPerDirectory]
    files when that limit is positive, and the file URLs returned are
    exactly the files so added. *)
Theorem walk_directories_once (E : Env) (cfg : Config) (hostURL htmlContent : string)
    (maxDepth count : Z) (sched : list (list OtherOp)) :
  (0 < maxDepth)%Z ->
  let wk := ScanHostRecursive E cfg hostURL htmlContent maxDepth count sched in
  NoDup (map fst (w_adds wk)) /\
  Forall (fun a => (0 < MaxLinksPerDirectory cfg)%Z ->
                   (Z.of_nat (snd a) <= MaxLinksPerDirectory cfg)%Z) (w_adds wk) /\
  length (w_allLinks wk) = list_sum (map snd (w_adds wk)).
Proof.
  intros Hd wk. subst wk. unfold ScanHostRecursive.
  destruct (Z.leb_spec maxDepth 0) as [Hle | _]; [lia|].
  destruct (scanRecursive_shape E cfg (Z.to_nat maxDepth) hostURL htmlContent 0 maxDepth
              (mkWalk 0 sched ∅ [] [] [] [])) as (H1 & _ & H3 & H4).
  - split; [constructor|]. split; [intros u Hu; inversion Hu|]. split; [constructor|reflexivity].
  - exact (conj H1 (conj H3 H4)).
Qed.

Lemma walk_directories_once_witness :
  let E := toy_env (fun u => if String.eqb u "http://h.test/d1/"
                             then mkFetch true "g1.pdf g2.pdf g3.pdf apache/" false
                             else mkFetch false "" false) binary_http in
  let wk := ScanHostRecursive E (mkConfig 2 0 0 true) "http://h.test/" "d1/ f1.pdf d1/" 3 0
              [[OtherStore0]; []; [OtherAdd 5]] in
  (0 < 3)%Z /\
  w_adds wk = [("http://h.test/", 1%nat); ("http://h.test/d1/", 2%nat)] /\
  NoDup (map fst (w_adds wk)) /\
  Forall (fun a => (0 < 2)%Z -> (Z.of_nat (snd a) <= 2)%Z) (w_adds wk) /\
  length (w_allLinks wk) = list_sum (map snd (w_adds wk)).
Proof.
  split; [reflexivity|]. split; [vm_compute; reflexivity|].
  exact (walk_directories_once
           (toy_env (fun u => if String.eqb u "http://h.test/d1/"
                              then mkFetch true "g1.pdf g2.pdf g3.pdf apache/" false
                              else mkFetch false "" false) binary_http)
           (mkConfig 2 0 0 true) "http://h.test/" "d1/ f1.pdf d1/" 3 0
           [[OtherStore0]; []; [OtherAdd 5]] ltac:(reflexivity)).
Defined.
End WalkShapeFacts.
